(** * Agri-Backend: the crop recommendation engine of [app.py]

    A shallow embedding of the price aggregator ([build_price_dictionary],
    [get_price_for_crop]) and of the body of the [/predict] route (rule
    filtering, yield prediction, profit and ROI, risk tier, ranking), with
    the properties the specification states about them.

    Modelling conventions.

    - A Python [float] is a value of [float] below: a rational number, one
      of the two infinities, or NaN.  Comparisons follow IEEE 754 (every
      ordered comparison with NaN is false, [nan == x] is false).
      Arithmetic on numbers is exact: rounding to binary64, overflow and
      the sign of zero are not represented.
    - A Python [str] is a [string]; [lower] and [strip] act on the ASCII
      range, other characters are left alone.
    - A [dict] is an association list in insertion order, which is the
      order in which Python iterates over it.
    - A call that can raise returns an [option]; [None] stands for the
      exception. *)

From Stdlib Require Import List String Ascii Bool ZArith QArith Qround Lia Lqa.
From Stdlib Require Import Permutation Sorted.
Import ListNotations.

Local Open Scope string_scope.
Local Open Scope Q_scope.

(** ** Floats *)

Module Float.

Inductive float : Type :=
| FNum (q : Q)
| FInf (negative : bool)
| FNaN.

Definition Qlt_bool (a b : Q) : bool := negb (Qle_bool b a).

(** [x < y] *)
Definition flt (x y : float) : bool :=
match x, y with
| FNaN, _ | _, FNaN => false
| FNum a, FNum b => Qlt_bool a b
| FNum _, FInf neg => negb neg
| FInf neg, FNum _ => neg
| FInf n1, FInf n2 => n1 && negb n2
end.

(** [x > y] *)
Definition fgt (x y : float) : bool := flt y x.

(** [x == y] *)
Definition feq (x y : float) : bool :=
match x, y with
| FNum a, FNum b => Qeq_bool a b
| FInf n1, FInf n2 => Bool.eqb n1 n2
| _, _ => false
end.

(** [x <= y] *)
Definition fle (x y : float) : bool := flt x y || feq x y.

Definition is_nan (x : float) : bool :=
match x with FNaN => true | _ => false end.

Definition Qsign_neg (q : Q) : bool := Qlt_bool q 0.

Definition fneg (x : float) : float :=
match x with
| FNum q => FNum (- q)
| FInf n => FInf (negb n)
| FNaN => FNaN
end.

(** [x + y] *)
Definition fadd (x y : float) : float :=
match x, y with
| FNaN, _ | _, FNaN => FNaN
| FNum a, FNum b => FNum (a + b)
| FInf n, FNum _ | FNum _, FInf n => FInf n
| FInf n1, FInf n2 => if Bool.eqb n1 n2 then FInf n1 else FNaN
end.

(** [x - y] *)
Definition fsub (x y : float) : float := fadd x (fneg y).

(** [x * y] *)
Definition fmul (x y : float) : float :=
match x, y with
| FNaN, _ | _, FNaN => FNaN
| FNum a, FNum b => FNum (a * b)
| FInf n, FNum q | FNum q, FInf n =>
    if Qeq_bool q 0 then FNaN else FInf (xorb n (Qsign_neg q))
| FInf n1, FInf n2 => FInf (xorb n1 n2)
end.

(** [x / y]; Python raises [ZeroDivisionError] when [y == 0]. *)
Definition fdiv (x y : float) : option float :=
if feq y (FNum 0) then None
else Some
  match x, y with
  | FNaN, _ | _, FNaN => FNaN
  | FNum a, FNum b => FNum (a / b)
  | FNum _, FInf _ => FNum 0
  | FInf n, FNum q => FInf (xorb n (Qsign_neg q))
  | FInf _, FInf _ => FNaN
  end.

(** Round half to even, to an integer. *)
Definition round_half_even (q : Q) : Z :=
let f := Qfloor q in
let r := q - inject_Z f in
if Qlt_bool r (1 # 2) then f
else if Qlt_bool (1 # 2) r then (f + 1)%Z
else if Z.even f then f else (f + 1)%Z.

(** [round(x, 2)] *)
Definition round2 (x : float) : float :=
match x with
| FNum q => FNum (inject_Z (round_half_even (q * 100)) / 100)
| _ => x
end.

Definition of_Z (z : Z) : float := FNum (inject_Z z).

End Float.
Import Float.

(** ** Strings: [str.lower], [str.strip] and the [in] operator *)

Definition lower_char (c : ascii) : ascii :=
  let n := nat_of_ascii c in
  if (65 <=? n)%nat && (n <=? 90)%nat then ascii_of_nat (n + 32) else c.

Fixpoint lower (s : string) : string :=
  match s with
  | EmptyString => EmptyString
  | String c s' => String (lower_char c) (lower s')
  end.

Definition is_space (c : ascii) : bool :=
  let n := nat_of_ascii c in
  ((9 <=? n)%nat && (n <=? 13)%nat) || ((28 <=? n)%nat && (n <=? 32)%nat).

Fixpoint lstrip (s : string) : string :=
  match s with
  | EmptyString => EmptyString
  | String c s' => if is_space c then lstrip s' else s
  end.

Fixpoint rstrip (s : string) : string :=
  match s with
  | EmptyString => EmptyString
  | String c s' =>
      match rstrip s' with
      | EmptyString => if is_space c then EmptyString else String c EmptyString
      | t => String c t
      end
  end.

Definition strip (s : string) : string := rstrip (lstrip s).

(** [needle in hay] *)
Fixpoint contains (needle hay : string) : bool :=
  if String.prefix needle hay then true
  else match hay with
       | EmptyString => false
       | String _ hay' => contains needle hay'
       end.

(** ** Insertion-ordered dictionaries *)

Section Dict.
Context {V : Type}.

Definition dict : Type := list (string * V).

Fixpoint dict_get (k : string) (d : dict) : option V :=
  match d with
  | [] => None
  | (k', v) :: d' => if String.eqb k k' then Some v else dict_get k d'
  end.

(** [k in d] *)
Definition dict_mem (k : string) (d : dict) : bool :=
  match dict_get k d with Some _ => true | None => false end.

(** [d[k] = v]: a new key goes last, an old key keeps its place. *)
Fixpoint dict_set (k : string) (v : V) (d : dict) : dict :=
  match d with
  | [] => [(k, v)]
  | (k', v') :: d' =>
      if String.eqb k k' then (k', v) :: d' else (k', v') :: dict_set k v d'
  end.
End Dict.
Arguments dict : clear implicits.

(** ** Sorting

    [list.sort] and [sorted] are stable and compare with [<] only.  They
    are modelled by a stable insertion sort; every stable comparison sort
    gives the same list when the keys are totally ordered, that is when
    no key is NaN. *)

Section Sorting.
Context {A : Type} (key : A -> float).

Fixpoint insert_by (x : A) (l : list A) : list A :=
  match l with
  | [] => [x]
  | y :: l' => if flt (key y) (key x) then y :: insert_by x l' else x :: l
  end.

(** [sorted(l, key=key)] *)
Definition sort_by (l : list A) : list A := fold_right insert_by [] l.

(** [l.sort(key=key, reverse=True)]: CPython reverses the list, sorts
    it in ascending order and reverses the result. *)
Definition sort_by_reverse (l : list A) : list A := rev (sort_by (rev l)).

(** Ascending and descending order of the keys, and keys that are
    numbers. *)
Definition ascending (a b : A) : Prop := fle (key a) (key b) = true.
Definition descending (a b : A) : Prop := fle (key b) (key a) = true.
Definition numeric (a : A) : Prop := is_nan (key a) = false.
End Sorting.

(** [sorted(data)] *)
Definition sorted (data : list float) : list float := sort_by (fun x => x) data.

(** [statistics.median(data)]; raises [StatisticsError] on no data.  It
    goes through [sorted], so that it stands for the library function on
    data without NaN. *)
Definition median (data : list float) : option float :=
  let data := sorted data in
  let n := List.length data in
  if (n =? 0)%nat then None
  else if (n mod 2 =? 1)%nat then nth_error data (n / 2)%nat
  else
    let i := (n / 2)%nat in
    match nth_error data (i - 1), nth_error data i with
    | Some a, Some b => fdiv (fadd a b) (of_Z 2)
    | _, _ => None
    end.



(** ** Market records *)

(** A JSON field as [dict.get] returns it: missing or null, a string, or a
    number. *)
Inductive field : Type :=
| Absent
| Text (s : string)
| Number (x : float).

(** One element of the [records] array; a commodity, when present, is a
    string. *)
Record record : Type := mkRecord {
  commodity : option string;
  modal_price : field
}.

(** Truth value of a field, as [not price] tests it. *)
Definition truthy (f : field) : bool :=
  match f with
  | Absent => false
  | Text s => negb (String.eqb s "")
  | Number x => negb (feq x (of_Z 0))
  end.

(** A parser for the plain literals used in the examples: an unsigned run
    of decimal digits, [nan], [inf] and [infinity] in any case, with
    surrounding white space.  Python's [float] returns the same value on
    each of them. *)
Definition digit_of (c : ascii) : option Z :=
  let n := nat_of_ascii c in
  if (48 <=? n)%nat && (n <=? 57)%nat then Some (Z.of_nat (n - 48)) else None.

Fixpoint digits_value (s : string) (acc : Z) : option Z :=
  match s with
  | EmptyString => Some acc
  | String c s' =>
      match digit_of c with
      | Some d => digits_value s' (10 * acc + d)%Z
      | None => None
      end
  end.

Definition float_of_decimal (s : string) : option float :=
  let t := lower (strip s) in
  if String.eqb t "nan" then Some FNaN
  else if String.eqb t "inf" || String.eqb t "infinity" then Some (FInf false)
  else match t with
       | EmptyString => None
       | _ => option_map of_Z (digits_value t 0)
       end.

(** ** Price aggregator *)

(** The accepted band of prices: [100 <= price <= 30000]. *)
Definition in_range (price : float) : bool :=
  fle (of_Z 100) price && fle price (of_Z 30000).

(** The prices quoted for one normalised commodity, in order. *)
Definition prices_of (k : string) (quotes : list (string * float)) : list float :=
  map snd (filter (fun q => String.eqb k (fst q)) quotes).

(** The dictionary holds, under each key, the prices quoted for it. *)
Definition grouped (quotes : list (string * float)) (d : dict (list float))
  : Prop :=
  forall k, dict_get k d =
            match prices_of k quotes with [] => None | l => Some l end.

Section PriceAggregator.
(** Python's [float] applied to a string; [None] is [ValueError]. *)
Variable py_float : string -> option float.

(** [float(x)] for a JSON field; [float(None)] raises [TypeError]. *)
Definition to_float (f : field) : option float :=
  match f with
  | Absent => None
  | Text s => py_float s
  | Number x => Some x
  end.

(** Lines 90-107: the guards a record goes through.  [None] is one of
    the [continue] statements; otherwise the normalised commodity and
    the parsed price that the loop goes on to append. *)
Definition quote_of_record (r : record) : option (string * float) :=
  match commodity r with
  | None => None
  | Some c =>
      if String.eqb c "" || negb (truthy (modal_price r)) then None
      else
        match to_float (modal_price r) with
        | None => None
        | Some price =>
            if flt price (of_Z 100) then None
            else if fgt price (of_Z 30000) then None
            else Some (strip (lower c), price)
        end
  end.

(** Lines 109-112. *)
Definition add_quote (price_dict : dict (list float))
           (commodity_clean : string) (price : float) : dict (list float) :=
  let price_dict :=
    if negb (dict_mem commodity_clean price_dict)
    then dict_set commodity_clean [] price_dict
    else price_dict in
  match dict_get commodity_clean price_dict with
  | Some prices => dict_set commodity_clean (prices ++ [price])%list price_dict
  | None => price_dict
  end.

(** One iteration of the loop of line 89. *)
Definition collect_step (price_dict : dict (list float)) (r : record)
  : dict (list float) :=
  match quote_of_record r with
  | None => price_dict
  | Some (commodity_clean, price) => add_quote price_dict commodity_clean price
  end.

Definition collect_quotes (records : list record) : dict (list float) :=
  fold_left collect_step records [].

(** Lines 115-116. *)
Fixpoint medians (price_dict : dict (list float)) : option (dict float) :=
  match price_dict with
  | [] => Some []
  | (commodity, prices) :: rest =>
      match median prices, medians rest with
      | Some m, Some rest' => Some ((commodity, m) :: rest')
      | _, _ => None
      end
  end.

Definition build_price_dictionary (records : list record)
  : option (dict float) :=
  medians (collect_quotes records).

(** The quotes that get past the guards, in the order of the records. *)
Definition surviving_quotes (records : list record) : list (string * float) :=
  flat_map (fun r => match quote_of_record r with
                     | Some q => [q]
                     | None => []
                     end) records.

(** The surviving prices of one normalised commodity. *)
Definition quotes_for (k : string) (records : list record) : list float :=
  prices_of k (surviving_quotes records).
End PriceAggregator.

(** Lines 121-134, after [crop_name = crop_name.lower()]. *)
Fixpoint scan_prices (crop_name : string) (price_dict : dict float) : float :=
  match price_dict with
  | [] => of_Z 0
  | (commodity, price) :: rest =>
      if contains "chilli" crop_name
         && (contains "dry" commodity && contains "green" crop_name)
      then scan_prices crop_name rest
      else if contains crop_name commodity then price
      else scan_prices crop_name rest
  end.

Definition get_price_for_crop (crop_name : string) (price_dict : dict float)
  : float :=
  scan_prices (lower crop_name) price_dict.

(** The key at which the loop of [get_price_for_crop] returns, if any. *)
Fixpoint scan_commodity (crop_name : string) (price_dict : dict float)
  : option string :=
  match price_dict with
  | [] => None
  | (commodity, price) :: rest =>
      if contains "chilli" crop_name
         && (contains "dry" commodity && contains "green" crop_name)
      then scan_commodity crop_name rest
      else if contains crop_name commodity then Some commodity
      else scan_commodity crop_name rest
  end.

Definition matched_commodity (crop_name : string) (price_dict : dict float)
  : option string :=
  scan_commodity (lower crop_name) price_dict.

(** ** Catalog, request and response *)

(** A row of [crop_master]. *)
Record CropRecord : Type := mkCrop {
  crop_id : Z;
  crop_name : string;
  total_cost_per_acre : float;
  season_kharif : Z;
  season_rabi : Z;
  soil_black : Z;
  soil_red : Z;
  soil_alluvial : Z
}.

(** The one-row frame handed to [model.predict], lines 185-197. *)
Module Features.
Record t : Type := mk {
  district_mean_rainfall : Z;
  rainfall_mm : float;
  crop_id : Z;
  soil_black : Z;
  soil_red : Z;
  soil_alluvial : Z;
  irrigation_rainfed : Z;
  irrigation_borewell : Z;
  irrigation_canal : Z;
  season_kharif : Z;
  season_rabi : Z
}.
End Features.

(** The JSON body of a [/predict] request. *)
Record request : Type := mkRequest {
  district : string;
  season : string;
  soil : string;
  rainfall : field;
  irrigation : string;
  land_area : field;
  profit : field
}.

(** One element of the [recommendations] array. *)
Record Recommendation : Type := mkRecommendation {
  crop : string;
  predicted_yield : float;
  market_price_per_quintal : float;
  investment : float;
  expected_profit : float;
  roi_percent : float;
  risk_level : string
}.

Definition district_rainfall : dict Z :=
  [ ("Mandya", 806); ("Mysuru", 798); ("Hassan", 1031);
    ("Chikkamagaluru", 1925); ("Shivamogga", 1813);
    ("Kodagu", 2718); ("Udupi", 4119);
    ("Dakshina Kannada", 3975); ("Uttara Kannada", 2835);
    ("Belagavi", 808); ("Dharwad", 772);
    ("Haveri", 753); ("Tumakuru", 688);
    ("Raichur", 621); ("Bagalkote", 562);
    ("Vijayapura", 578); ("Kolar", 744);
    ("Bengaluru Rural", 885); ("Ballari", 636);
    ("Gulbarga", 777) ]%Z.

(** ** Rule filtering: lines 173-183 *)

Definition season_rule (season : string) (c : CropRecord) : bool :=
  if String.eqb (lower season) "kharif" && negb (season_kharif c =? 1)%Z
  then false
  else if String.eqb (lower season) "rabi" && negb (season_rabi c =? 1)%Z
  then false
  else true.

Definition soil_rule (soil : string) (c : CropRecord) : bool :=
  if String.eqb (lower soil) "black" && negb (soil_black c =? 1)%Z
  then false
  else if String.eqb (lower soil) "red" && negb (soil_red c =? 1)%Z
  then false
  else if String.eqb (lower soil) "alluvial" && negb (soil_alluvial c =? 1)%Z
  then false
  else true.

(** [true] when no [continue] of lines 173-183 is taken. *)
Definition rule_filter (season soil : string) (c : CropRecord) : bool :=
  season_rule season c && soil_rule soil c.

(** ** Financial calculator: lines 206-217 *)

(** [(expected_profit / investment) * 100 if investment > 0 else 0] *)
Definition roi (expected_profit investment : float) : option float :=
  if fgt investment (of_Z 0) then
    match fdiv expected_profit investment with
    | Some ratio => Some (fmul ratio (of_Z 100))
    | None => None
    end
  else Some (of_Z 0).

Definition risk (roi : float) : string :=
  if fgt roi (of_Z 200) then "High Reward (High Market Volatility)"
  else if fgt roi (of_Z 80) then "Moderate"
  else "Stable".

(** ** Ranking: lines 229-233 *)

Definition rank (recommendations : list Recommendation) : list Recommendation :=
  firstn 3 (sort_by_reverse expected_profit recommendations).

(** ** The [/predict] route *)

Section Engine.
Variable py_float : string -> option float.
(** [model.predict(input_data)[0]] *)
Variable model_predict : Features.t -> float.
Variable crop_master : list CropRecord.

Definition flag (b : bool) : Z := if b then 1%Z else 0%Z.

Definition input_data (district_mean : Z) (rainfall : float)
           (soil irrigation season : string) (c : CropRecord) : Features.t :=
  {| Features.district_mean_rainfall := district_mean;
     Features.rainfall_mm := rainfall;
     Features.crop_id := crop_id c;
     Features.soil_black := flag (String.eqb (lower soil) "black");
     Features.soil_red := flag (String.eqb (lower soil) "red");
     Features.soil_alluvial := flag (String.eqb (lower soil) "alluvial");
     Features.irrigation_rainfed := flag (String.eqb (lower irrigation) "rainfed");
     Features.irrigation_borewell := flag (String.eqb (lower irrigation) "borewell");
     Features.irrigation_canal := flag (String.eqb (lower irrigation) "canal");
     Features.season_kharif := flag (String.eqb (lower season) "kharif");
     Features.season_rabi := flag (String.eqb (lower season) "rabi") |}.

(** Lines 199-227 for a crop that got past the rule filter, with the
    price already looked up.  [None] is an exception, [Some None] the
    [continue] of line 204. *)
Definition evaluate (c : CropRecord) (predicted_yield price land_area : float)
  : option (option Recommendation) :=
  if feq price (of_Z 0) then Some None
  else
    let investment := fmul (total_cost_per_acre c) land_area in
    let revenue := fmul (fmul predicted_yield land_area) price in
    let expected_profit := fsub revenue investment in
    match roi expected_profit investment with
    | None => None
    | Some roi =>
        Some (Some {| crop := crop_name c;
                      predicted_yield := round2 predicted_yield;
                      market_price_per_quintal := round2 price;
                      investment := round2 investment;
                      expected_profit := round2 expected_profit;
                      roi_percent := round2 roi;
                      risk_level := risk roi |})
    end.

(** The body of the loop of line 170 for one crop. *)
Definition consider (data : request) (district_mean : Z)
           (rainfall land_area : float) (price_dict : dict float)
           (c : CropRecord) : option (option Recommendation) :=
  if negb (rule_filter (season data) (soil data) c) then Some None
  else
    let predicted_yield :=
      model_predict (input_data district_mean rainfall (soil data)
                                (irrigation data) (season data) c) in
    let price := get_price_for_crop (crop_name c) price_dict in
    evaluate c predicted_yield price land_area.

(** The loop of line 170: the recommendations appended, in catalog
    order. *)
Fixpoint recommend (data : request) (district_mean : Z)
         (rainfall land_area : float) (price_dict : dict float)
         (crops : list CropRecord) : option (list Recommendation) :=
  match crops with
  | [] => Some []
  | c :: crops' =>
      match consider data district_mean rainfall land_area price_dict c with
      | None => None
      | Some r =>
          match recommend data district_mean rainfall land_area
                          price_dict crops' with
          | None => None
          | Some rs =>
              Some (match r with Some r => r :: rs | None => rs end)
          end
      end
  end.

(** [predict], given the records [fetch_karnataka_prices] returned. *)
Definition predict (data : request) (mandi_records : list record)
  : option (list Recommendation) :=
  match to_float py_float (rainfall data),
        to_float py_float (land_area data),
        to_float py_float (profit data) with
  | Some rainfall, Some land_area, Some available_profit =>
      let district_mean :=
        match dict_get (district data) district_rainfall with
        | Some mean => mean
        | None => 800%Z
        end in
      match build_price_dictionary py_float mandi_records with
      | None => None
      | Some price_dict =>
          match recommend data district_mean rainfall land_area
                          price_dict crop_master with
          | None => None
          | Some recommendations => Some (rank recommendations)
          end
      end
  | _, _, _ => None
  end.
End Engine.

(** ** The price source: lines 67-83 *)

(** What the request to the market API comes to: an exception inside the
    [try] block (no connection, a body that is not a JSON object), or a
    JSON object with or without the key [records]. *)
Inductive api_reply : Type :=
| Unreachable
| Reply (records : option (list record)).

(** [fetch_karnataka_prices], given the outcome of the request:
    [data.get("records", [])], and [[]] from the [except] branch. *)
Definition fetch_karnataka_prices (reply : api_reply) : list record :=
  match reply with
  | Unreachable => []
  | Reply None => []
  | Reply (Some records) => records
  end.

(** The test that lets the loop of [get_price_for_crop] return at a
    commodity: it is not skipped by the chilli rule and it contains the
    lower-cased crop name. *)
Definition eligible (crop_name commodity : string) : bool :=
  negb (contains "chilli" crop_name
        && (contains "dry" commodity && contains "green" crop_name))
  && contains crop_name commodity.

(** The keys of a dictionary filled from a list of keys: each key once,
    at the place of its first occurrence. *)
Definition remember_key (seen : list string) (k : string) : list string :=
  if existsb (String.eqb k) seen then seen else (seen ++ [k])%list.

Definition first_occurrences (keys : list string) : list string :=
  fold_left remember_key keys [].

(** [district_rainfall.get(district, 800)], line 163. *)
Definition district_mean_of (district : string) : Z :=
  match dict_get district district_rainfall with
  | Some mean => mean
  | None => 800%Z
  end.

(** ** Sample data for the examples *)

(** A candidate recommendation with a given expected profit. *)
Definition candidate (name : string) (profit : float) : Recommendation :=
  {| crop := name;
     predicted_yield := of_Z 0;
     market_price_per_quintal := of_Z 0;
     investment := of_Z 0;
     expected_profit := profit;
     roi_percent := of_Z 0;
     risk_level := "Stable" |}.

(** A predictor that answers the same yield for every crop. *)
Definition constant_model (yield : float) : Features.t -> float :=
  fun _ => yield.

Definition sample_catalog : list CropRecord :=
  [ mkCrop 1 "Ragi" (of_Z 10000) 1 0 0 1 0;
    mkCrop 2 "Rice" (of_Z 15000) 1 0 0 1 1;
    mkCrop 3 "Wheat" (of_Z 9000) 0 1 1 0 0 ]%Z.

Definition sample_request (profit : field) : request :=
  {| district := "Mandya";
     season := "Kharif";
     soil := "Red";
     rainfall := Number (of_Z 800);
     irrigation := "Borewell";
     land_area := Number (of_Z 2);
     profit := profit |}.

Definition sample_records : list record :=
  [ mkRecord (Some "Ragi (Finger Millet)") (Text "2000");
    mkRecord (Some "Rice") (Text "45");
    mkRecord (Some "Wheat") (Text "2400") ].

(** * Properties *)

(** ** Facts on floats *)

Lemma Qlt_bool_true (a b : Q) : Qlt_bool a b = true <-> a < b.
Proof.
  unfold Qlt_bool. rewrite negb_true_iff.
  split; intro H.
  - apply Qnot_le_lt. intro Hle. apply Qle_bool_iff in Hle. congruence.
  - destruct (Qle_bool b a) eqn:E; [|reflexivity].
    apply Qle_bool_iff in E. exfalso. apply (Qlt_not_le _ _ H E).
Qed.

Lemma Qlt_bool_false (a b : Q) : Qlt_bool a b = false <-> b <= a.
Proof.
  unfold Qlt_bool. rewrite negb_false_iff. apply Qle_bool_iff.
Qed.

Lemma Qeq_bool_false (a b : Q) : Qeq_bool a b = false <-> ~ a == b.
Proof.
  split; intro H.
  - intro E. apply Qeq_bool_iff in E. congruence.
  - destruct (Qeq_bool a b) eqn:E; [|reflexivity].
    apply Qeq_bool_iff in E. contradiction.
Qed.

Arguments Qlt_bool : simpl never.
Arguments Qeq_bool : simpl never.
Arguments Qle_bool : simpl never.

(** Turns the boolean comparisons on rationals in the context and the goal
    into propositions that [lra] reads. *)
Ltac qprop :=
  repeat match goal with
  | H : Qlt_bool _ _ = true |- _ => apply Qlt_bool_true in H
  | H : Qlt_bool _ _ = false |- _ => apply Qlt_bool_false in H
  | H : Qeq_bool _ _ = true |- _ => apply Qeq_bool_iff in H
  | H : Qeq_bool _ _ = false |- _ => apply Qeq_bool_false in H
  | |- Qlt_bool _ _ = true => apply Qlt_bool_true
  | |- Qlt_bool _ _ = false => apply Qlt_bool_false
  | |- Qeq_bool _ _ = true => apply Qeq_bool_iff
  | |- Qeq_bool _ _ = false => apply Qeq_bool_false
  end.

(** Case analysis on every rational comparison in the goal. *)
Ltac qcases :=
  repeat match goal with
  | |- context [Qlt_bool ?a ?b] =>
      let E := fresh "E" in destruct (Qlt_bool a b) eqn:E
  | |- context [Qeq_bool ?a ?b] =>
      let E := fresh "E" in destruct (Qeq_bool a b) eqn:E
  | H : context [Qlt_bool ?a ?b] |- _ =>
      lazymatch type of H with
      | Qlt_bool _ _ = _ => fail
      | _ => let E := fresh "E" in destruct (Qlt_bool a b) eqn:E
      end
  | H : context [Qeq_bool ?a ?b] |- _ =>
      lazymatch type of H with
      | Qeq_bool _ _ = _ => fail
      | _ => let E := fresh "E" in destruct (Qeq_bool a b) eqn:E
      end
  end.

Ltac qsolve :=
  cbn in *; qcases; cbn in *; qprop; unfold inject_Z in *;
  try reflexivity; try discriminate; try (exfalso; lra); try lra.

Lemma flt_asym (x y : float) : flt x y = true -> flt y x = false.
Proof.
  destruct x as [a|[]|], y as [b|[]|]; cbn; try congruence; intros; qsolve.
Qed.

Lemma flt_not_nan (x y : float) :
  flt x y = true -> is_nan x = false /\ is_nan y = false.
Proof.
  destruct x as [a|[]|], y as [b|[]|]; cbn; auto; discriminate.
Qed.

(** On numbers, "not greater" is "less or equal". *)
Lemma not_fgt_fle (x y : float) :
  is_nan x = false -> is_nan y = false -> fgt x y = false -> fle x y = true.
Proof.
  unfold fgt, fle.
  destruct x as [a|[]|], y as [b|[]|]; cbn; try congruence; intros; qsolve.
Qed.

Lemma fle_not_fgt (x y : float) : fle x y = true -> fgt x y = false.
Proof.
  unfold fgt, fle.
  destruct x as [a|[]|], y as [b|[]|]; cbn; try congruence; intros; qsolve.
Qed.

Lemma fle_trans (x y z : float) :
  fle x y = true -> fle y z = true -> fle x z = true.
Proof.
  unfold fle.
  destruct x as [a|[]|], y as [b|[]|], z as [c|[]|]; cbn;
    try congruence; intros; try reflexivity; qsolve.
Qed.

Lemma fgt_zero_nonzero (x : float) :
  fgt x (of_Z 0) = true -> feq x (FNum 0) = false.
Proof.
  unfold fgt. destruct x as [a|[]|]; cbn; try congruence; intros; qsolve.
Qed.

(** ** Financial calculator *)

(** The guard [investment > 0] keeps the division away from zero. *)
Lemma roi_returns (expected_profit investment : float) :
  roi expected_profit investment <> None.
Proof.
  unfold roi. destruct (fgt investment (of_Z 0)) eqn:E; [|discriminate].
  unfold fdiv. rewrite (fgt_zero_nonzero _ E). discriminate.
Qed.

(** C5: the risk tier is "High Reward (High Market Volatility)" exactly
    when [roi > 200], "Moderate" exactly when [80 < roi <= 200], and
    "Stable" in every other case (NaN included); 200 gives "Moderate",
    80 gives "Stable", 200.01 the high tier and 80.01 "Moderate". *)
Theorem risk_tiers (r : float) :
  (risk r = "High Reward (High Market Volatility)"
     <-> fgt r (of_Z 200) = true) /\
  (risk r = "Moderate"
     <-> fgt r (of_Z 80) = true /\ fle r (of_Z 200) = true) /\
  (risk r = "Stable"
     <-> fgt r (of_Z 200) = false
         /\ fgt r (of_Z 80) && fle r (of_Z 200) = false) /\
  risk (of_Z 200) = "Moderate" /\
  risk (of_Z 80) = "Stable" /\
  risk (FNum (20001 # 100)) = "High Reward (High Market Volatility)" /\
  risk (FNum (8001 # 100)) = "Moderate".
Proof.
  assert (Hmid : fgt r (of_Z 80) = true -> fgt r (of_Z 200) = false ->
                 fle r (of_Z 200) = true).
  { intros E80 E200. apply not_fgt_fle; [|reflexivity|exact E200].
    apply (flt_not_nan _ _ E80). }
  unfold risk.
  split; [|split; [|split; [|repeat split; reflexivity]]]; split.
  - destruct (fgt r (of_Z 200)); [reflexivity|].
    destruct (fgt r (of_Z 80)); intros H; discriminate H.
  - intros ->. reflexivity.
  - destruct (fgt r (of_Z 200)) eqn:E200; [intros H; discriminate H|].
    destruct (fgt r (of_Z 80)) eqn:E80; [|intros H; discriminate H].
    intros _. split; [reflexivity | apply Hmid; reflexivity].
  - intros [-> Hle]. apply fle_not_fgt in Hle. rewrite Hle. reflexivity.
  - destruct (fgt r (of_Z 200)) eqn:E200; [intros H; discriminate H|].
    destruct (fgt r (of_Z 80)) eqn:E80; [intros H; discriminate H|].
    intros _. split; reflexivity.
  - intros [E200 H]. rewrite E200.
    destruct (fgt r (of_Z 80)) eqn:E80; [|reflexivity].
    cbn in H. rewrite (Hmid eq_refl E200) in H. discriminate H.
Qed.

(** C6: when [investment > 0] the ROI is [(expected_profit / investment)
    * 100], when [investment <= 0] (zero included) it is 0, and in no case
    does the computation raise ([roi] is never [None]). *)
Theorem roi_guarded (expected_profit investment : float) :
  roi expected_profit investment <> None /\
  (fgt investment (of_Z 0) = true ->
   exists ratio,
     fdiv expected_profit investment = Some ratio /\
     roi expected_profit investment = Some (fmul ratio (of_Z 100))) /\
  (fle investment (of_Z 0) = true ->
   roi expected_profit investment = Some (of_Z 0)) /\
  roi expected_profit (of_Z 0) = Some (of_Z 0).
Proof.
  split; [apply roi_returns|]. unfold roi. repeat split.
  - intros E. rewrite E. unfold fdiv. rewrite (fgt_zero_nonzero _ E).
    eexists. split; reflexivity.
  - intros E. rewrite (fle_not_fgt _ _ E). reflexivity.
Qed.

(** ** Price resolution *)

Lemma scan_prices_commodity (crop_name : string) (price_dict : dict float) :
  match scan_commodity crop_name price_dict with
  | Some commodity =>
      contains crop_name commodity = true /\
      In (commodity, scan_prices crop_name price_dict) price_dict /\
      (contains "chilli" crop_name = true ->
       contains "green" crop_name = true ->
       contains "dry" commodity = false)
  | None => scan_prices crop_name price_dict = of_Z 0
  end.
Proof.
  induction price_dict as [|[commodity price] rest IH]; [reflexivity|].
  cbn [scan_commodity scan_prices].
  destruct (contains "chilli" crop_name
            && (contains "dry" commodity && contains "green" crop_name)) eqn:Eskip.
  - destruct (scan_commodity crop_name rest); [|exact IH].
    destruct IH as (Hin & Hmem & Hdry). repeat split; auto. now right.
  - destruct (contains crop_name commodity) eqn:Ematch.
    + repeat split; [exact Ematch | now left |].
      intros Hc Hg. rewrite Hc, Hg in Eskip.
      destruct (contains "dry" commodity); [discriminate Eskip | reflexivity].
    + destruct (scan_commodity crop_name rest); [|exact IH].
      destruct IH as (Hin & Hmem & Hdry). repeat split; auto. now right.
Qed.

(** C1, as the code has it: a crop name that contains "chilli" and "green"
    is never given the price of a commodity whose key contains "dry"; the
    key it is given contains the lower-cased crop name, and without a
    match the price is 0.  The query "dry chilli" is given the price of
    the commodity "dry chilli". *)
Theorem green_chilli_skips_dry (crop_name : string) (price_dict : dict float)
        (Hchilli : contains "chilli" (lower crop_name) = true)
        (Hgreen : contains "green" (lower crop_name) = true) :
  match matched_commodity crop_name price_dict with
  | Some commodity =>
      contains "dry" commodity = false /\
      contains (lower crop_name) commodity = true /\
      In (commodity, get_price_for_crop crop_name price_dict) price_dict
  | None => get_price_for_crop crop_name price_dict = of_Z 0
  end /\
  get_price_for_crop "dry chilli" [("dry chilli", of_Z 5000)] = of_Z 5000.
Proof.
  split; [|reflexivity].
  unfold matched_commodity, get_price_for_crop.
  pose proof (scan_prices_commodity (lower crop_name) price_dict) as H.
  destruct (scan_commodity (lower crop_name) price_dict); [|exact H].
  destruct H as (Hin & Hmem & Hdry). auto.
Qed.

Lemma green_chilli_skips_dry_witness :
  contains "chilli" (lower "Green Chilli") = true /\
  contains "green" (lower "Green Chilli") = true /\
  (contains "dry" "green chilli" = false /\
   contains (lower "Green Chilli") "green chilli" = true /\
   In ("green chilli",
       get_price_for_crop "Green Chilli"
         [("dry green chilli", of_Z 9000); ("green chilli", of_Z 3000)])
      [("dry green chilli", of_Z 9000); ("green chilli", of_Z 3000)]).
Proof.
  split; [reflexivity|]. split; [reflexivity|].
  exact (proj1 (green_chilli_skips_dry "Green Chilli"
    [("dry green chilli", of_Z 9000); ("green chilli", of_Z 3000)]
    eq_refl eq_refl)).
Defined.

(** C1 as stated fails: "chilli" contains "chilli" and not "dry", and it is
    given the price of the commodity "dry chilli". *)
Lemma chilli_matches_dry_chilli :
  contains "chilli" (lower "chilli") = true /\
  contains "dry" (lower "chilli") = false /\
  contains "dry" "dry chilli" = true /\
  matched_commodity "chilli" [("dry chilli", of_Z 5000)] = Some "dry chilli" /\
  get_price_for_crop "chilli" [("dry chilli", of_Z 5000)] = of_Z 5000.
Proof. repeat split; reflexivity. Qed.

(** "ragi" resolves against the commodity "ragi (finger millet)". *)
Example ragi_resolves :
  get_price_for_crop "Ragi" [("ragi (finger millet)", of_Z 3200)] = of_Z 3200.
Proof. reflexivity. Qed.

(** ** Rule filtering *)

(** A crop that gets past the filter has the flag of every recognised
    value of the request. *)
Lemma rule_filter_flags (season soil : string) (c : CropRecord) :
  rule_filter season soil c = true ->
  (lower season = "kharif" -> season_kharif c = 1%Z) /\
  (lower season = "rabi" -> season_rabi c = 1%Z) /\
  (lower soil = "black" -> soil_black c = 1%Z) /\
  (lower soil = "red" -> soil_red c = 1%Z) /\
  (lower soil = "alluvial" -> soil_alluvial c = 1%Z).
Proof.
  unfold rule_filter, season_rule, soil_rule. intros Hrule.
  apply andb_prop in Hrule. destruct Hrule as [Hseason Hsoil].
  repeat split; intros E; rewrite E in *; cbn in Hseason, Hsoil.
  - destruct (season_kharif c =? 1)%Z eqn:F; [now apply Z.eqb_eq|].
    discriminate Hseason.
  - destruct (season_rabi c =? 1)%Z eqn:F; [now apply Z.eqb_eq|].
    discriminate Hseason.
  - destruct (soil_black c =? 1)%Z eqn:F; [now apply Z.eqb_eq|].
    discriminate Hsoil.
  - destruct (soil_red c =? 1)%Z eqn:F; [now apply Z.eqb_eq|].
    discriminate Hsoil.
  - destruct (soil_alluvial c =? 1)%Z eqn:F; [now apply Z.eqb_eq|].
    discriminate Hsoil.
Qed.

(** C2, as the code has it: a season that is neither "kharif" nor "rabi"
    excludes no crop on the season axis, and a soil that is none of
    "black", "red", "alluvial" excludes no crop on the soil axis; with both
    unrecognised every crop gets past the filter.  Each of the five
    recognised values excludes the crops whose flag for it is not 1. *)
Theorem rule_filter_unrecognised (season soil : string) (c : CropRecord) :
  (lower season <> "kharif" -> lower season <> "rabi" ->
   season_rule season c = true /\
   rule_filter season soil c = soil_rule soil c) /\
  (lower soil <> "black" -> lower soil <> "red" -> lower soil <> "alluvial" ->
   soil_rule soil c = true /\
   rule_filter season soil c = season_rule season c) /\
  (lower season <> "kharif" -> lower season <> "rabi" ->
   lower soil <> "black" -> lower soil <> "red" -> lower soil <> "alluvial" ->
   rule_filter season soil c = true) /\
  (lower season = "kharif" -> season_kharif c <> 1%Z ->
   rule_filter season soil c = false) /\
  (lower season = "rabi" -> season_rabi c <> 1%Z ->
   rule_filter season soil c = false) /\
  (lower soil = "black" -> soil_black c <> 1%Z ->
   rule_filter season soil c = false) /\
  (lower soil = "red" -> soil_red c <> 1%Z ->
   rule_filter season soil c = false) /\
  (lower soil = "alluvial" -> soil_alluvial c <> 1%Z ->
   rule_filter season soil c = false).
Proof.
  assert (Hseason : lower season <> "kharif" -> lower season <> "rabi" ->
                    season_rule season c = true).
  { intros H1 H2. unfold season_rule.
    apply String.eqb_neq in H1, H2. rewrite H1, H2. reflexivity. }
  assert (Hsoil : lower soil <> "black" -> lower soil <> "red" ->
                  lower soil <> "alluvial" -> soil_rule soil c = true).
  { intros H1 H2 H3. unfold soil_rule.
    apply String.eqb_neq in H1, H2, H3. rewrite H1, H2, H3. reflexivity. }
  assert (Hflags := rule_filter_flags season soil c).
  split; [|split; [|split]].
  - intros H1 H2. split; [auto|].
    unfold rule_filter. now rewrite Hseason.
  - intros H1 H2 H3. split; [auto|].
    unfold rule_filter. rewrite Hsoil by assumption. apply andb_true_r.
  - intros. unfold rule_filter. now rewrite Hseason, Hsoil.
  - destruct (rule_filter season soil c);
      [|repeat split; intros; reflexivity].
    destruct (Hflags eq_refl) as (Hk & Hr & Hb & Hd & Ha).
    repeat split; intros Hvalue Hflag; exfalso; apply Hflag; auto.
Qed.

Lemma rule_filter_unrecognised_witness :
  rule_filter "Summer" "Clay"
    (mkCrop 1 "Ragi" (of_Z 10000) 0 0 0 0 0) = true /\
  rule_filter "Rabi" "Black"
    (mkCrop 2 "Rice" (of_Z 15000) 1 0 1 1 1) = false /\
  rule_filter "Kharif" "ALLUVIAL"
    (mkCrop 1 "Ragi" (of_Z 10000) 1 0 0 1 0) = false.
Proof.
  split; [|split].
  - apply (proj1 (proj2 (proj2
             (rule_filter_unrecognised "Summer" "Clay"
                (mkCrop 1 "Ragi" (of_Z 10000) 0 0 0 0 0)))));
      cbn; intros H; discriminate H.
  - apply (proj1 (proj2 (proj2 (proj2 (proj2
             (rule_filter_unrecognised "Rabi" "Black"
                (mkCrop 2 "Rice" (of_Z 15000) 1 0 1 1 1)))))));
      [reflexivity | cbn; intros H; discriminate H].
  - apply (proj2 (proj2 (proj2 (proj2 (proj2 (proj2 (proj2
             (rule_filter_unrecognised "Kharif" "ALLUVIAL"
                (mkCrop 1 "Ragi" (of_Z 10000) 1 0 0 1 0)))))))));
      [reflexivity | cbn; intros H; discriminate H].
Defined.

(** C2 as stated fails: under the season "zaid" and the soil "laterite" a
    crop with every compatibility flag at 0 gets past the filter. *)
Lemma unknown_season_and_soil_keep_crop :
  lower "zaid" <> "kharif" /\ lower "zaid" <> "rabi" /\
  lower "laterite" <> "black" /\ lower "laterite" <> "red" /\
  lower "laterite" <> "alluvial" /\
  rule_filter "zaid" "laterite"
    (mkCrop 7 "Maize" (of_Z 12000) 0 0 0 0 0) = true.
Proof. repeat split; try reflexivity; cbn; intros H; discriminate H. Qed.

(** ** Dictionaries *)

Section DictFacts.
Context {V : Type}.
Implicit Types (d : dict V) (k : string) (v : V).

Lemma dict_get_set_same k v d : dict_get k (dict_set k v d) = Some v.
Proof.
  induction d as [|[k' v'] d IH]; cbn.
  - now rewrite String.eqb_refl.
  - destruct (String.eqb k k') eqn:E; cbn; rewrite E; auto.
Qed.

Lemma dict_get_set_other k k' v d :
  k <> k' -> dict_get k (dict_set k' v d) = dict_get k d.
Proof.
  intros Hne. induction d as [|[k0 v0] d IH]; cbn.
  - apply String.eqb_neq in Hne. now rewrite Hne.
  - destruct (String.eqb k' k0) eqn:E; cbn.
    + apply String.eqb_eq in E. subst k0.
      apply String.eqb_neq in Hne. now rewrite Hne.
    + now rewrite IH.
Qed.

Lemma dict_set_new k v d :
  dict_get k d = None -> dict_set k v d = (d ++ [(k, v)])%list.
Proof.
  induction d as [|[k' v'] d IH]; cbn; [reflexivity|].
  destruct (String.eqb k k'); [discriminate|].
  intros H. now rewrite IH.
Qed.

Lemma dict_set_last k v v' d :
  dict_get k d = None ->
  dict_set k v' (d ++ [(k, v)])%list = (d ++ [(k, v')])%list.
Proof.
  induction d as [|[k0 v0] d IH]; cbn.
  - now rewrite String.eqb_refl.
  - destruct (String.eqb k k0); [discriminate|].
    intros H. now rewrite IH.
Qed.

Lemma dict_set_Forall (P : string * V -> Prop) k v d :
  (forall k', P (k', v)) -> Forall P d -> Forall P (dict_set k v d).
Proof.
  intros Hv. induction 1 as [|[k0 v0] d H0 Hd IH]; cbn.
  - constructor; auto.
  - destruct (String.eqb k k0); constructor; auto.
Qed.
End DictFacts.

(** ** Sorting *)

Section SortFacts.
Context {A : Type} (key : A -> float).

Lemma insert_by_perm (x : A) (l : list A) :
  Permutation (insert_by key x l) (x :: l).
Proof.
  induction l as [|y l IH]; cbn; [reflexivity|].
  destruct (flt (key y) (key x)); [|reflexivity].
  rewrite IH. apply perm_swap.
Qed.

Lemma sort_by_perm (l : list A) : Permutation (sort_by key l) l.
Proof.
  induction l as [|x l IH]; cbn; [reflexivity|].
  rewrite insert_by_perm. now constructor.
Qed.

Lemma sort_by_length (l : list A) :
  List.length (sort_by key l) = List.length l.
Proof. apply Permutation_length, sort_by_perm. Qed.

Lemma sort_by_reverse_perm (l : list A) :
  Permutation (sort_by_reverse key l) l.
Proof.
  unfold sort_by_reverse.
  rewrite <- Permutation_rev, sort_by_perm, <- Permutation_rev. reflexivity.
Qed.

Lemma insert_by_sorted (x : A) (l : list A) :
  numeric key x -> Forall (numeric key) l ->
  StronglySorted (ascending key) l ->
  StronglySorted (ascending key) (insert_by key x l).
Proof.
  intros Hx Hl Hs. induction Hs as [|y l Hs IH Hy]; cbn.
  - repeat constructor.
  - inversion Hl as [|? ? Hny Hnl]; subst.
    destruct (flt (key y) (key x)) eqn:E.
    + constructor; [auto|].
      apply (Permutation_Forall (Permutation_sym (insert_by_perm x l))).
      constructor; [|exact Hy].
      unfold ascending, fle. now rewrite E.
    + assert (Hxy : ascending key x y).
      { apply not_fgt_fle; assumption. }
      constructor; [constructor; assumption|].
      constructor; [exact Hxy|].
      eapply Forall_impl; [|exact Hy].
      intros z Hz. unfold ascending in *. eapply fle_trans; eassumption.
Qed.

Lemma sort_by_sorted (l : list A) :
  Forall (numeric key) l -> StronglySorted (ascending key) (sort_by key l).
Proof.
  induction 1 as [|x l Hx Hl IH]; cbn; [constructor|].
  apply insert_by_sorted; auto.
  apply (Permutation_Forall (Permutation_sym (sort_by_perm l))). exact Hl.
Qed.

Lemma sorted_snoc (R : A -> A -> Prop) (x : A) (l : list A) :
  StronglySorted R l -> Forall (fun y => R y x) l ->
  StronglySorted R (l ++ [x]).
Proof.
  induction 1 as [|y l Hs IH Hy]; cbn; intros Hx.
  - repeat constructor.
  - inversion Hx; subst. constructor; [auto|].
    apply Forall_app. split; [exact Hy | repeat constructor; assumption].
Qed.

Lemma sorted_rev (l : list A) :
  StronglySorted (ascending key) l -> StronglySorted (descending key) (rev l).
Proof.
  induction 1 as [|y l Hs IH Hy]; cbn; [constructor|].
  apply sorted_snoc; [exact IH|].
  apply Forall_rev. exact Hy.
Qed.

Lemma sort_by_reverse_sorted (l : list A) :
  Forall (numeric key) l ->
  StronglySorted (descending key) (sort_by_reverse key l).
Proof.
  intros Hl. apply sorted_rev, sort_by_sorted, Forall_rev, Hl.
Qed.

(** Stability: an element moves only past elements with a smaller key,
    so the elements picked by a predicate on the key keep their order. *)
Section Stable.
Variable p : A -> bool.
Hypothesis p_class :
  forall x y, p x = true -> flt (key y) (key x) = true -> p y = false.

Lemma insert_by_filter (x : A) (l : list A) :
  filter p (insert_by key x l) = filter p (x :: l).
Proof.
  induction l as [|y l IH]; [reflexivity|].
  cbn [insert_by]. destruct (flt (key y) (key x)) eqn:E; [|reflexivity].
  cbn [filter] in *. rewrite IH.
  destruct (p x) eqn:Ex; [|reflexivity].
  now rewrite (p_class x y Ex E).
Qed.

Lemma sort_by_filter (l : list A) : filter p (sort_by key l) = filter p l.
Proof.
  induction l as [|x l IH]; [reflexivity|].
  cbn [sort_by fold_right]. rewrite insert_by_filter.
  cbn [filter]. fold (sort_by key l). now rewrite IH.
Qed.

Lemma filter_rev' (l : list A) : filter p (rev l) = rev (filter p l).
Proof.
  induction l as [|x l IH]; [reflexivity|].
  cbn. rewrite filter_app, IH. cbn. destruct (p x); cbn.
  - reflexivity.
  - apply app_nil_r.
Qed.

Lemma sort_by_reverse_filter (l : list A) :
  filter p (sort_by_reverse key l) = filter p l.
Proof.
  unfold sort_by_reverse.
  now rewrite filter_rev', sort_by_filter, filter_rev', rev_involutive.
Qed.
End Stable.
End SortFacts.

(** The elements whose key equals [v] form a class as needed above. *)
Lemma feq_class (x y v : float) :
  feq x v = true -> flt y x = true -> feq y v = false.
Proof.
  destruct x as [a|[]|], y as [b|[]|], v as [c|[]|]; cbn;
    try congruence; intros; qsolve.
Qed.

(** ** The median *)

Lemma fdiv_two (x : float) : exists m, fdiv x (of_Z 2) = Some m.
Proof. unfold fdiv. cbn. eexists. reflexivity. Qed.

Lemma median_nil : median [] = None.
Proof. reflexivity. Qed.

(** [statistics.median] returns on every list that is not empty. *)
Lemma median_some (data : list float) :
  data <> [] -> exists m, median data = Some m.
Proof.
  intros Hne. unfold median.
  pose proof (sort_by_length (fun x => x) data) as Hlen.
  fold (sorted data) in Hlen.
  set (n := List.length (sorted data)) in *.
  assert (Hn : (0 < n)%nat).
  { rewrite Hlen. destruct data; [congruence | cbn; lia]. }
  destruct (n =? 0)%nat eqn:E0; [apply Nat.eqb_eq in E0; lia|].
  assert (Hhalf : (n / 2 < n)%nat) by (apply Nat.div_lt; lia).
  destruct (n mod 2 =? 1)%nat eqn:Eodd.
  - destruct (nth_error (sorted data) (n / 2)) eqn:E; [eauto|].
    apply nth_error_None in E. fold n in E. lia.
  - destruct (nth_error (sorted data) (n / 2 - 1)) as [a|] eqn:Ea.
    2:{ apply nth_error_None in Ea. fold n in Ea. lia. }
    destruct (nth_error (sorted data) (n / 2)) as [b|] eqn:Eb.
    2:{ apply nth_error_None in Eb. fold n in Eb. lia. }
    apply fdiv_two.
Qed.

(** The median has every property that the data have and that the mean
    of two values keeps. *)
Lemma median_closed (P : float -> Prop) (data : list float) (m : float) :
  (forall a b h, P a -> P b -> fdiv (fadd a b) (of_Z 2) = Some h -> P h) ->
  Forall P data -> median data = Some m -> P m.
Proof.
  intros Hmean Hdata. unfold median.
  assert (Hs : Forall P (sorted data)).
  { apply (Permutation_Forall (Permutation_sym (sort_by_perm _ data))), Hdata. }
  rewrite Forall_forall in Hs.
  destruct (List.length (sorted data) =? 0)%nat; [discriminate|].
  destruct (List.length (sorted data) mod 2 =? 1)%nat.
  - intros E. apply nth_error_In in E. auto.
  - destruct (nth_error _ (_ - 1)) as [a|] eqn:Ea; [|discriminate].
    destruct (nth_error _ (_ / 2)) as [b|] eqn:Eb; [|discriminate].
    apply nth_error_In in Ea, Eb. eauto.
Qed.



(** ** Price aggregator *)

Lemma flt_negb_fle (x y : float) :
  is_nan x = false -> is_nan y = false -> flt x y = negb (fle y x).
Proof.
  unfold fle.
  destruct x as [a|[]|], y as [b|[]|]; cbn; try congruence; intros; qsolve.
Qed.

(** What gets past the two comparisons of the outlier filter is a number
    of the band, or NaN. *)
Lemma outlier_filter_passes (price : float) :
  flt price (of_Z 100) = false -> fgt price (of_Z 30000) = false ->
  price = FNaN \/ in_range price = true.
Proof.
  unfold fgt, in_range, fle.
  destruct price as [q|[]|]; cbn; try congruence; auto.
  intros. right. qsolve.
Qed.

Lemma in_range_mean (a b h : float) :
  in_range a = true -> in_range b = true ->
  fdiv (fadd a b) (of_Z 2) = Some h -> in_range h = true.
Proof.
  unfold in_range, fle, fdiv.
  destruct a as [a|[]|], b as [b|[]|]; cbn; try congruence.
  intros Ha Hb [= <-]. cbn.
  assert (Hd : (a + b) / (2 # 1) == (a + b) * (1 # 2)) by (unfold Qdiv; reflexivity).
  qcases; qprop; unfold inject_Z in *; try reflexivity; try discriminate;
    exfalso; rewrite ?Hd in *; cbn in *; lra.
Qed.

Lemma prices_of_app (k : string) (qs qs' : list (string * float)) :
  prices_of k (qs ++ qs') = (prices_of k qs ++ prices_of k qs')%list.
Proof. unfold prices_of. now rewrite filter_app, map_app. Qed.

Section AggregatorFacts.
Variable py_float : string -> option float.

Lemma add_quote_spec (d : dict (list float)) (c : string) (p : float) :
  add_quote d c p =
  dict_set c (match dict_get c d with Some l => l | None => [] end ++ [p])%list d.
Proof.
  unfold add_quote, dict_mem.
  destruct (dict_get c d) as [l|] eqn:E; cbn.
  - now rewrite E.
  - rewrite dict_get_set_same. cbn.
    rewrite (dict_set_new c [] d E), (dict_set_new c [p] d E).
    apply dict_set_last, E.
Qed.

Lemma grouped_add qs d c p :
  grouped qs d -> grouped (qs ++ [(c, p)]) (add_quote d c p).
Proof.
  intros Hg k. rewrite add_quote_spec, prices_of_app.
  unfold prices_of at 2. cbn.
  destruct (String.eqb k c) eqn:E.
  - apply String.eqb_eq in E. subst k. rewrite dict_get_set_same.
    rewrite (Hg c). cbn.
    destruct (prices_of c qs); reflexivity.
  - apply String.eqb_neq in E. rewrite dict_get_set_other by exact E.
    cbn. rewrite app_nil_r. apply Hg.
Qed.

Lemma surviving_quotes_cons (r : record) (records : list record) :
  surviving_quotes py_float (r :: records) =
  (match quote_of_record py_float r with Some q => [q] | None => [] end
   ++ surviving_quotes py_float records)%list.
Proof. reflexivity. Qed.

Lemma surviving_quotes_In (records : list record) (k : string) (p : float) :
  In (k, p) (surviving_quotes py_float records) <->
  exists r, In r records /\ quote_of_record py_float r = Some (k, p).
Proof.
  unfold surviving_quotes. rewrite in_flat_map. split.
  - intros (r & Hr & Hq). exists r. split; [exact Hr|].
    destruct (quote_of_record py_float r); [|contradiction].
    destruct Hq as [->|[]]. reflexivity.
  - intros (r & Hr & Hq). exists r. split; [exact Hr|].
    rewrite Hq. now left.
Qed.

Lemma collect_grouped (records : list record) :
  forall qs d, grouped qs d ->
    grouped (qs ++ surviving_quotes py_float records)
            (fold_left (collect_step py_float) records d).
Proof.
  induction records as [|r records IH]; intros qs d Hg.
  - cbn. now rewrite app_nil_r.
  - cbn [fold_left]. rewrite surviving_quotes_cons, app_assoc. apply IH.
    unfold collect_step.
    destruct (quote_of_record py_float r) as [[c p]|].
    + apply grouped_add, Hg.
    + now rewrite app_nil_r.
Qed.

Lemma collect_quotes_grouped (records : list record) (k : string) :
  dict_get k (collect_quotes py_float records) =
  match quotes_for py_float k records with [] => None | l => Some l end.
Proof.
  apply (collect_grouped records [] []). intros k'. reflexivity.
Qed.

(** Every list of the dictionary is made of surviving prices and is not
    empty. *)
Lemma collect_step_Forall (P : float -> Prop) (r : record)
      (d : dict (list float)) :
  (forall c p, quote_of_record py_float r = Some (c, p) -> P p) ->
  Forall (fun kv => snd kv <> [] /\ Forall P (snd kv)) d ->
  Forall (fun kv => snd kv <> [] /\ Forall P (snd kv))
         (collect_step py_float d r).
Proof.
  intros HP Hd. unfold collect_step.
  destruct (quote_of_record py_float r) as [[c p]|] eqn:E; [|exact Hd].
  rewrite add_quote_spec. apply dict_set_Forall; [|exact Hd].
  intros k'. cbn.
  assert (Hp : P p) by (eapply HP; reflexivity).
  split.
  - destruct (dict_get c d) as [[|]|]; discriminate.
  - apply Forall_app. split; [|repeat constructor; exact Hp].
    destruct (dict_get c d) as [l|] eqn:Eg; [|constructor].
    clear -Eg Hd. induction Hd as [|[k0 l0] d H0 Hd IH]; [discriminate|].
    cbn in Eg. destruct (String.eqb c k0); [|auto].
    injection Eg as <-. apply H0.
Qed.

Lemma collect_Forall (P : float -> Prop) (records : list record) :
  (forall r c p, In r records ->
                 quote_of_record py_float r = Some (c, p) -> P p) ->
  Forall (fun kv => snd kv <> [] /\ Forall P (snd kv))
         (collect_quotes py_float records).
Proof.
  unfold collect_quotes.
  assert (H : forall d,
    (forall r c p, In r records ->
                   quote_of_record py_float r = Some (c, p) -> P p) ->
    Forall (fun kv : string * list float => snd kv <> [] /\ Forall P (snd kv)) d ->
    Forall (fun kv => snd kv <> [] /\ Forall P (snd kv))
           (fold_left (collect_step py_float) records d)).
  { induction records as [|r records IH]; intros d HP Hd; cbn; [exact Hd|].
    apply IH; [intros; eapply HP; [right|]; eassumption|].
    apply collect_step_Forall; [|exact Hd].
    intros c p E. eapply HP; [left; reflexivity | exact E]. }
  intros HP. apply H; [exact HP | constructor].
Qed.

(** The second loop replaces each list by its median and never raises. *)
Lemma medians_spec (P : float -> Prop) (d : dict (list float)) :
  Forall (fun kv => snd kv <> [] /\ Forall P (snd kv)) d ->
  exists price_dict,
    medians d = Some price_dict /\
    (forall k, dict_get k price_dict =
               match dict_get k d with Some l => median l | None => None end) /\
    (forall k m, In (k, m) price_dict ->
                 exists l, Forall P l /\ median l = Some m).
Proof.
  induction 1 as [|[k0 l0] d [Hne HP] Hd IH]; cbn.
  - exists []. split; [reflexivity|]. split; [reflexivity|].
    intros k m [].
  - destruct (median_some l0 Hne) as [m0 Hm0].
    destruct IH as (pd & Hpd & Hget & Hin).
    rewrite Hm0, Hpd. exists ((k0, m0) :: pd).
    split; [reflexivity|]. split.
    + intros k. cbn. destruct (String.eqb k k0); [now rewrite Hm0 | apply Hget].
    + intros k m [[= <- <-]|Hkm]; [exists l0; auto | eauto].
Qed.
Lemma quote_of_record_price (r : record) (c : string) (p : float) :
  quote_of_record py_float r = Some (c, p) ->
  to_float py_float (modal_price r) = Some p /\
  (p = FNaN \/ in_range p = true).
Proof.
  unfold quote_of_record.
  destruct (commodity r) as [c0|]; [|discriminate].
  destruct (String.eqb c0 "" || negb (truthy (modal_price r))); [discriminate|].
  destruct (to_float py_float (modal_price r)) as [price|]; [|discriminate].
  destruct (flt price (of_Z 100)) eqn:Elo; [discriminate|].
  destruct (fgt price (of_Z 30000)) eqn:Ehi; [discriminate|].
  intros [= <- <-]. split; [reflexivity|].
  apply outlier_filter_passes; assumption.
Qed.

(** The index is built without an exception and holds the medians. *)
Lemma build_price_dictionary_medians (records : list record) :
  exists price_dict,
    build_price_dictionary py_float records = Some price_dict /\
    forall k, dict_get k price_dict = median (quotes_for py_float k records).
Proof.
  unfold build_price_dictionary.
  destruct (medians_spec (fun _ => True) (collect_quotes py_float records))
    as (price_dict & Hbuild & Hget & _).
  { apply collect_Forall. intros; exact I. }
  exists price_dict. split; [exact Hbuild|].
  intros k. rewrite Hget, collect_quotes_grouped.
  destruct (quotes_for py_float k records); reflexivity.
Qed.

(** Every price of the index is a number of the band, or NaN. *)
Lemma index_values (records : list record) (price_dict : dict float) :
  build_price_dictionary py_float records = Some price_dict ->
  forall k m, In (k, m) price_dict -> m = FNaN \/ in_range m = true.
Proof.
  unfold build_price_dictionary. intros Hbuild k m Hin.
  destruct (medians_spec (fun p => p = FNaN \/ in_range p = true)
                         (collect_quotes py_float records))
    as (pd & Hpd & _ & Hval).
  { apply collect_Forall. intros r c p _ E.
    apply (quote_of_record_price r c p E). }
  rewrite Hpd in Hbuild. injection Hbuild as <-.
  destruct (Hval k m Hin) as (l & Hl & Hm).
  apply (median_closed (fun p => p = FNaN \/ in_range p = true) l m);
    [|exact Hl|exact Hm].
  intros a b h Ha Hb E.
  destruct Ha as [->|Ha].
  { vm_compute in E. injection E as <-. now left. }
  destruct Hb as [->|Hb].
  { destruct a; vm_compute in E; injection E as <-; now left. }
  right. exact (in_range_mean a b h Ha Hb E).
Qed.

(** When no price parses to NaN, every price of the index lies in the
    band. *)
Lemma index_in_band (records : list record) (price_dict : dict float)
        (Hnum : forall r, In r records ->
                          to_float py_float (modal_price r) <> Some FNaN)
        (Hbuild : build_price_dictionary py_float records = Some price_dict) :
  forall k m, In (k, m) price_dict -> in_range m = true.
Proof.
  unfold build_price_dictionary in Hbuild. intros k m Hin.
  destruct (medians_spec (fun p => in_range p = true)
                         (collect_quotes py_float records))
    as (pd & Hpd & _ & Hval).
  { apply collect_Forall. intros r c p Hr E.
    destruct (quote_of_record_price r c p E) as [Hp [->|Hin']]; [|exact Hin'].
    exfalso. exact (Hnum r Hr Hp). }
  rewrite Hpd in Hbuild. injection Hbuild as <-.
  destruct (Hval k m Hin) as (l & Hl & Hm).
  apply (median_closed (fun p => in_range p = true) l m);
    [|exact Hl|exact Hm].
  intros a b h. apply in_range_mean.
Qed.


Lemma surviving_quotes_app (before after : list record) :
  surviving_quotes py_float (before ++ after) =
  (surviving_quotes py_float before ++ surviving_quotes py_float after)%list.
Proof. unfold surviving_quotes. apply flat_map_app. Qed.

Lemma quotes_for_insert (k : string) (r : record) (before after : list record) :
  quotes_for py_float k (before ++ r :: after) =
  (quotes_for py_float k before
   ++ match quote_of_record py_float r with
      | Some (c, p) => if String.eqb k c then [p] else []
      | None => []
      end
   ++ quotes_for py_float k after)%list.
Proof.
  unfold quotes_for.
  rewrite surviving_quotes_app, surviving_quotes_cons, !prices_of_app.
  f_equal. f_equal.
  destruct (quote_of_record py_float r) as [[c p]|]; [|reflexivity].
  unfold prices_of. cbn. now destruct (String.eqb k c).
Qed.

(** C3: a quote with a commodity name whose price parses to a number is
    kept exactly when [100 <= price <= 30000].  Kept: wherever the record
    stands in the feed, the list gathered under its normalised commodity
    holds its price, at its place among the other surviving prices of
    that commodity, and the index has an entry for the commodity.
    Dropped: the gathered lists and the index are those of the feed
    without the record.  Prices 100 and 30000 are kept, 99 and 30001 are
    dropped. *)
Theorem outlier_policy (r : record) (c : string) (price : float)
        (Hc : commodity r = Some c) (Hname : c <> "")
        (Hempty : py_float "" = None)
        (Hprice : to_float py_float (modal_price r) = Some price)
        (Hnum : is_nan price = false) :
  quote_of_record py_float r =
    (if in_range price then Some (strip (lower c), price) else None) /\
  (forall before after,
     if in_range price then
       dict_get (strip (lower c))
                (collect_quotes py_float (before ++ r :: after))
       = Some (quotes_for py_float (strip (lower c)) before
               ++ price :: quotes_for py_float (strip (lower c)) after)%list /\
       exists price_dict m,
         build_price_dictionary py_float (before ++ r :: after)
           = Some price_dict /\
         dict_get (strip (lower c)) price_dict = Some m
     else
       collect_quotes py_float (before ++ r :: after)
         = collect_quotes py_float (before ++ after) /\
       build_price_dictionary py_float (before ++ r :: after)
         = build_price_dictionary py_float (before ++ after)) /\
  collect_quotes py_float
    [ mkRecord (Some "Rice") (Number (of_Z 99));
      mkRecord (Some "Rice") (Number (of_Z 100));
      mkRecord (Some "Rice") (Number (of_Z 30000));
      mkRecord (Some "Rice") (Number (of_Z 30001)) ]
  = [("rice", [of_Z 100; of_Z 30000])] /\
  collect_quotes py_float
    [ mkRecord (Some "Rice") (Number (of_Z 99));
      mkRecord (Some "Rice") (Number (of_Z 30001)) ]
  = [].
Proof.
  assert (Hq : quote_of_record py_float r =
               if in_range price then Some (strip (lower c), price) else None).
  { unfold quote_of_record. rewrite Hc.
    apply String.eqb_neq in Hname. rewrite Hname. cbn [orb].
    assert (Hband : (if flt price (of_Z 100) then None
                     else if fgt price (of_Z 30000) then None
                     else Some (strip (lower c), price)) =
                    if in_range price then Some (strip (lower c), price) else None).
    { unfold in_range, fgt.
      rewrite (flt_negb_fle price (of_Z 100)) by (exact Hnum || reflexivity).
      rewrite (flt_negb_fle (of_Z 30000) price) by (exact Hnum || reflexivity).
      destruct (fle (of_Z 100) price), (fle price (of_Z 30000)); reflexivity. }
    destruct (truthy (modal_price r)) eqn:Et; cbn [negb].
    - rewrite Hprice. exact Hband.
    - destruct (modal_price r) as [|s|x]; cbn in Et, Hprice.
      + discriminate Hprice.
      + apply negb_false_iff, String.eqb_eq in Et. subst s. congruence.
      + injection Hprice as ->.
        apply negb_false_iff in Et.
        assert (Hout : in_range price = false).
        { unfold in_range, fle. destruct price as [q|[]|]; try discriminate.
          unfold of_Z in *. qsolve. }
        now rewrite Hout. }
  split; [exact Hq|]. split; [|split; reflexivity].
  intros before after. destruct (in_range price).
  - assert (Hlist : quotes_for py_float (strip (lower c)) (before ++ r :: after)
                    = (quotes_for py_float (strip (lower c)) before
                       ++ price :: quotes_for py_float (strip (lower c)) after)%list).
    { rewrite quotes_for_insert, Hq, String.eqb_refl. reflexivity. }
    assert (Hne : quotes_for py_float (strip (lower c)) (before ++ r :: after)
                  <> []).
    { rewrite Hlist. intros E. apply app_eq_nil in E.
      destruct E as [_ E]. discriminate E. }
    split.
    + rewrite collect_quotes_grouped, <- Hlist.
      destruct (quotes_for py_float (strip (lower c)) (before ++ r :: after));
        [congruence | reflexivity].
    + destruct (build_price_dictionary_medians (before ++ r :: after))
        as (price_dict & Hbuild & Hget).
      destruct (median_some _ Hne) as [m Hm].
      exists price_dict, m. split; [exact Hbuild|].
      now rewrite Hget.
  - assert (Hsame : collect_quotes py_float (before ++ r :: after)
                    = collect_quotes py_float (before ++ after)).
    { unfold collect_quotes. rewrite !fold_left_app. cbn [fold_left].
      unfold collect_step at 2. now rewrite Hq. }
    split; [exact Hsame|].
    unfold build_price_dictionary. now rewrite Hsame.
Qed.


End AggregatorFacts.

(** ** Ranking *)

(** C7, as the code has it: when every expected profit is a number, the
    ranker returns the first three candidates of the list ordered by
    expected profit, largest first, in which candidates with equal profit
    keep their original order; it returns every candidate when there are
    three or fewer, and the empty list when there is none.  The profits 50,
    200, 75, 10 give 200, 75, 50. *)
Theorem rank_top_three (recommendations : list Recommendation)
        (Hnum : Forall (numeric expected_profit) recommendations) :
  (exists ordered,
     rank recommendations = firstn 3 ordered /\
     Permutation ordered recommendations /\
     StronglySorted (descending expected_profit) ordered /\
     forall v,
       filter (fun r => feq (expected_profit r) v) ordered =
       filter (fun r => feq (expected_profit r) v) recommendations) /\
  List.length (rank recommendations)
    = Nat.min 3 (List.length recommendations) /\
  ((List.length recommendations <= 3)%nat ->
   Permutation (rank recommendations) recommendations) /\
  rank [] = [] /\
  map expected_profit
      (rank [ candidate "a" (of_Z 50); candidate "b" (of_Z 200);
              candidate "c" (of_Z 75); candidate "d" (of_Z 10) ])
  = [of_Z 200; of_Z 75; of_Z 50].
Proof.
  split; [|split; [|split; [|split; reflexivity]]].
  - exists (sort_by_reverse expected_profit recommendations).
    split; [reflexivity|]. split; [apply sort_by_reverse_perm|].
    split; [apply sort_by_reverse_sorted, Hnum|].
    intros v. apply sort_by_reverse_filter.
    intros x y Hx Hlt. exact (feq_class _ _ _ Hx Hlt).
  - unfold rank. rewrite length_firstn.
    now rewrite (Permutation_length (sort_by_reverse_perm _ recommendations)).
  - intros Hlen. unfold rank. rewrite firstn_all2.
    + apply sort_by_reverse_perm.
    + now rewrite (Permutation_length (sort_by_reverse_perm _ recommendations)).
Qed.

Lemma rank_top_three_witness :
  Forall (numeric expected_profit)
         [ candidate "a" (of_Z 75); candidate "b" (of_Z 200);
           candidate "c" (of_Z 75) ] /\
  List.length (rank [ candidate "a" (of_Z 75); candidate "b" (of_Z 200);
                      candidate "c" (of_Z 75) ]) = 3%nat.
Proof.
  assert (H : Forall (numeric expected_profit)
                [ candidate "a" (of_Z 75); candidate "b" (of_Z 200);
                  candidate "c" (of_Z 75) ])
    by (repeat constructor).
  split; [exact H|].
  exact (proj1 (proj2 (rank_top_three _ H))).
Defined.

(** Ties keep the order of evaluation. *)
Example rank_is_stable :
  map crop (rank [ candidate "a" (of_Z 75); candidate "b" (of_Z 200);
                   candidate "c" (of_Z 75); candidate "d" (of_Z 200) ])
  = ["b"; "d"; "a"].
Proof. reflexivity. Qed.

(** C7 as stated fails on a list with a NaN profit: the candidates come
    back in the order 1, NaN, 2, so that the profit 2 is ranked below the
    profit 1. *)
Lemma rank_with_nan_profit :
  map expected_profit
      (rank [ candidate "a" (of_Z 1); candidate "b" FNaN;
              candidate "c" (of_Z 2) ])
  = [of_Z 1; FNaN; of_Z 2] /\
  fle (of_Z 2) (of_Z 1) = false.
Proof. split; reflexivity. Qed.

(** ** The pipeline of [predict] *)

Lemma round_half_even_ge (z : Z) (q : Q) :
  inject_Z z <= q -> (z <= round_half_even q)%Z.
Proof.
  intros H. apply Qfloor_resp_le in H. rewrite Qfloor_Z in H.
  unfold round_half_even.
  destruct (Qlt_bool _ _); [exact H|].
  destruct (Qlt_bool _ _); [lia|].
  destruct (Z.even _); lia.
Qed.

Lemma round2_at_least_100 (p : float) :
  fle (of_Z 100) p = true -> fle (of_Z 100) (round2 p) = true.
Proof.
  destruct p as [q|[]|]; cbn; try congruence.
  unfold fle, of_Z. cbn. intros H.
  assert (Hq : 100 <= q) by (unfold inject_Z in *; qsolve).
  assert (Hr : (10000 <= round_half_even (q * 100))%Z).
  { apply round_half_even_ge. unfold inject_Z. lra. }
  assert (Hi : inject_Z 10000 <= inject_Z (round_half_even (q * 100))).
  { rewrite <- Zle_Qle. exact Hr. }
  set (n := inject_Z (round_half_even (q * 100))) in *.
  clearbody n. clear Hr H Hq.
  assert (Hd : n / inject_Z 100 == n * (1 # 100)) by (unfold Qdiv; reflexivity).
  qcases; qprop; try reflexivity; exfalso;
    rewrite ?Hd in *; unfold inject_Z in *; lra.
Qed.

Lemma fle_100_nonzero (p : float) :
  fle (of_Z 100) p = true -> feq p (of_Z 0) = false /\ flt (of_Z 0) p = true.
Proof.
  unfold fle, of_Z. destruct p as [q|[]|]; cbn; try congruence; auto.
  intros H. split; qsolve.
Qed.

(** A resolved price is the literal 0 of line 134 or a value of the
    index. *)
Lemma get_price_in_index (name : string) (price_dict : dict float) :
  get_price_for_crop name price_dict = of_Z 0 \/
  exists k, In (k, get_price_for_crop name price_dict) price_dict.
Proof.
  unfold get_price_for_crop.
  pose proof (scan_prices_commodity (lower name) price_dict) as H.
  destruct (scan_commodity (lower name) price_dict) as [k|].
  - right. exists k. apply H.
  - now left.
Qed.

Section EngineFacts.
Variable py_float : string -> option float.
Variable model_predict : Features.t -> float.
Variable crop_master : list CropRecord.

Lemma evaluate_returns (c : CropRecord) (yield price area : float) :
  evaluate c yield price area <> None.
Proof.
  unfold evaluate. destruct (feq price (of_Z 0)); [discriminate|].
  destruct (roi _ _) eqn:E; [discriminate|].
  exfalso. exact (roi_returns _ _ E).
Qed.

Lemma evaluate_some (c : CropRecord) (yield price area : float)
      (rec : Recommendation) :
  evaluate c yield price area = Some (Some rec) ->
  feq price (of_Z 0) = false /\
  crop rec = crop_name c /\
  market_price_per_quintal rec = round2 price.
Proof.
  unfold evaluate. destruct (feq price (of_Z 0)); [discriminate|].
  destruct (roi _ _); [|discriminate].
  intros [= <-]. repeat split.
Qed.

Lemma consider_some (data : request) (mean : Z) (rain area : float)
      (price_dict : dict float) (c : CropRecord) (rec : Recommendation) :
  consider model_predict data mean rain area price_dict c = Some (Some rec) ->
  rule_filter (season data) (soil data) c = true /\
  feq (get_price_for_crop (crop_name c) price_dict) (of_Z 0) = false /\
  crop rec = crop_name c /\
  market_price_per_quintal rec
    = round2 (get_price_for_crop (crop_name c) price_dict).
Proof.
  unfold consider.
  destruct (rule_filter (season data) (soil data) c); [|discriminate].
  cbn [negb]. intros H. split; [reflexivity|].
  exact (evaluate_some _ _ _ _ _ H).
Qed.

Lemma recommend_in (data : request) (mean : Z) (rain area : float)
      (price_dict : dict float) (crops : list CropRecord) :
  forall recs,
    recommend model_predict data mean rain area price_dict crops = Some recs ->
    forall rec, In rec recs ->
      exists c, In c crops /\
        consider model_predict data mean rain area price_dict c
          = Some (Some rec).
Proof.
  induction crops as [|c crops IH]; cbn; intros recs H rec Hin.
  - injection H as <-. contradiction.
  - destruct (consider model_predict data mean rain area price_dict c)
      as [r|] eqn:Ec; [|discriminate].
    destruct (recommend model_predict data mean rain area price_dict crops)
      as [rs|]; [|discriminate].
    injection H as <-.
    destruct r as [r|].
    + destruct Hin as [<-|Hin].
      * exists c. split; [now left | exact Ec].
      * destruct (IH rs eq_refl rec Hin) as (c' & Hc' & E).
        exists c'. split; [now right | exact E].
    + destruct (IH rs eq_refl rec Hin) as (c' & Hc' & E).
      exists c'. split; [now right | exact E].
Qed.

Lemma recommend_returns (data : request) (mean : Z) (rain area : float)
      (price_dict : dict float) (crops : list CropRecord) :
  exists recs,
    recommend model_predict data mean rain area price_dict crops = Some recs.
Proof.
  induction crops as [|c crops [recs IH]]; cbn; [eauto|].
  rewrite IH. unfold consider.
  destruct (negb _); [eauto|].
  destruct (evaluate _ _ _ _) eqn:E; [eauto|].
  exfalso. exact (evaluate_returns _ _ _ _ E).
Qed.

Lemma rank_subset (recs : list Recommendation) (rec : Recommendation) :
  In rec (rank recs) -> In rec recs.
Proof.
  unfold rank. intros H.
  apply (Permutation_in _ (sort_by_reverse_perm expected_profit recs)).
  rewrite <- (firstn_skipn 3). apply in_or_app. now left.
Qed.

(** A request whose three numeric fields convert is answered. *)
Lemma predict_returns (data : request) (mandi_records : list record) :
  to_float py_float (rainfall data) <> None ->
  to_float py_float (land_area data) <> None ->
  to_float py_float (profit data) <> None ->
  exists out,
    predict py_float model_predict crop_master data mandi_records = Some out.
Proof.
  intros Hr Ha Hp. unfold predict.
  destruct (to_float py_float (rainfall data)) as [rain|]; [|congruence].
  destruct (to_float py_float (land_area data)) as [area|]; [|congruence].
  destruct (to_float py_float (profit data)) as [cap|]; [|congruence].
  destruct (build_price_dictionary_medians py_float mandi_records)
    as (price_dict & Hbuild & _).
  rewrite Hbuild.
  match goal with
  | |- context [recommend ?m ?d ?dm ?r ?a ?pd ?cs] =>
      destruct (recommend_returns d dm r a pd cs) as [recs Hrecs]
  end.
  rewrite Hrecs. eauto.
Qed.
(** The loop reads the request through its season, soil and irrigation
    only. *)
Lemma recommend_ext (d1 d2 : request) (mean : Z) (rain area : float)
      (price_dict : dict float) (crops : list CropRecord) :
  season d1 = season d2 -> soil d1 = soil d2 -> irrigation d1 = irrigation d2 ->
  recommend model_predict d1 mean rain area price_dict crops =
  recommend model_predict d2 mean rain area price_dict crops.
Proof.
  intros Hs Ho Hi. induction crops as [|c crops IH]; [reflexivity|].
  cbn [recommend]. rewrite IH. unfold consider. now rewrite Hs, Ho, Hi.
Qed.

(** Every recommendation of the answer comes from a crop of the catalog
    that got past the season and soil rules and whose name resolved to a
    price other than 0; the price reported is that price rounded and is
    never 0.  When no quote price is NaN the resolved price is at least
    100, hence strictly positive, and so is the price reported.  A crop
    whose price resolves to 0 is skipped. *)
Theorem recommendations_are_priced
        (data : request) (mandi_records : list record)
        (out : list Recommendation)
        (Hout : predict py_float model_predict crop_master data mandi_records
                = Some out) :
  exists price_dict,
    build_price_dictionary py_float mandi_records = Some price_dict /\
    (forall rec, In rec out ->
     exists c,
       In c crop_master /\
       rule_filter (season data) (soil data) c = true /\
       crop rec = crop_name c /\
       feq (get_price_for_crop (crop_name c) price_dict) (of_Z 0) = false /\
       market_price_per_quintal rec
         = round2 (get_price_for_crop (crop_name c) price_dict) /\
       feq (market_price_per_quintal rec) (of_Z 0) = false /\
       ((forall r, In r mandi_records ->
                   to_float py_float (modal_price r) <> Some FNaN) ->
        flt (of_Z 0) (get_price_for_crop (crop_name c) price_dict) = true /\
        fle (of_Z 100) (get_price_for_crop (crop_name c) price_dict) = true /\
        fle (of_Z 100) (market_price_per_quintal rec) = true)) /\
    (forall c mean rain area,
       feq (get_price_for_crop (crop_name c) price_dict) (of_Z 0) = true ->
       consider model_predict data mean rain area price_dict c = Some None).
Proof.
  unfold predict in Hout.
  destruct (to_float py_float (rainfall data)) as [rain|]; [|discriminate].
  destruct (to_float py_float (land_area data)) as [area|]; [|discriminate].
  destruct (to_float py_float (profit data)) as [cap|]; [|discriminate].
  destruct (build_price_dictionary py_float mandi_records)
    as [price_dict|] eqn:Hbuild; [|discriminate].
  exists price_dict. split; [reflexivity|]. split.
  - destruct (recommend _ _ _ _ _ _ _) as [recs|] eqn:Hrecs; [|discriminate].
    injection Hout as <-. intros rec Hin.
    apply rank_subset in Hin.
    destruct (recommend_in _ _ _ _ _ _ _ Hrecs rec Hin) as (c & Hc & Econs).
    destruct (consider_some _ _ _ _ _ _ _ Econs) as (Hrule & Hnz & Hname & Hprice).
    exists c. split; [exact Hc|]. split; [exact Hrule|]. split; [exact Hname|].
    split; [exact Hnz|]. split; [exact Hprice|].
    set (price := get_price_for_crop (crop_name c) price_dict) in *.
    assert (Hidx : exists k, In (k, price) price_dict).
    { destruct (get_price_in_index (crop_name c) price_dict) as [E|E];
        [|exact E].
      fold price in E. rewrite E in Hnz. discriminate Hnz. }
    destruct Hidx as [k Hk]. split.
    + rewrite Hprice.
      destruct (index_values py_float _ _ Hbuild k price Hk) as [->|Hband];
        [reflexivity|].
      apply andb_prop in Hband. destruct Hband as [Hlo _].
      apply (fle_100_nonzero _ (round2_at_least_100 _ Hlo)).
    + intros Hnum.
      pose proof (index_in_band py_float _ _ Hnum Hbuild k price Hk) as Hband.
      apply andb_prop in Hband. destruct Hband as [Hlo _].
      split; [apply (fle_100_nonzero _ Hlo)|]. split; [exact Hlo|].
      rewrite Hprice. apply round2_at_least_100, Hlo.
  - intros c mean rain' area' Hz. unfold consider, evaluate.
    destruct (negb _); [reflexivity|]. now rewrite Hz.
Qed.

(** C9: two requests that differ in the [profit] field only, each with
    numeric fields that convert, are answered, and with the same list of
    recommendations. *)
Theorem profit_is_ignored (d1 d2 : request) (mandi_records : list record)
        (Hdistrict : district d1 = district d2)
        (Hseason : season d1 = season d2)
        (Hsoil : soil d1 = soil d2)
        (Hrainfall : rainfall d1 = rainfall d2)
        (Hirrigation : irrigation d1 = irrigation d2)
        (Hland : land_area d1 = land_area d2)
        (Hrain_ok : to_float py_float (rainfall d1) <> None)
        (Hland_ok : to_float py_float (land_area d1) <> None)
        (Hprofit1 : to_float py_float (profit d1) <> None)
        (Hprofit2 : to_float py_float (profit d2) <> None) :
  exists out,
    predict py_float model_predict crop_master d1 mandi_records = Some out /\
    predict py_float model_predict crop_master d2 mandi_records = Some out.
Proof.
  destruct (predict_returns d1 mandi_records Hrain_ok Hland_ok Hprofit1)
    as [out Hout].
  exists out. split; [exact Hout|]. rewrite <- Hout.
  unfold predict. rewrite <- Hdistrict, <- Hrainfall, <- Hland.
  destruct (to_float py_float (rainfall d1)) as [rain|]; [|congruence].
  destruct (to_float py_float (land_area d1)) as [area|]; [|congruence].
  destruct (to_float py_float (profit d1)) as [cap1|]; [|congruence].
  destruct (to_float py_float (profit d2)) as [cap2|]; [|congruence].
  destruct (build_price_dictionary py_float mandi_records); [|reflexivity].
  now rewrite (recommend_ext d2 d1) by (symmetry; assumption).
Qed.
End EngineFacts.

(** ** The properties on sample data *)

Lemma outlier_policy_witness :
  commodity (mkRecord (Some "Rice") (Text "30000")) = Some "Rice" /\
  "Rice" <> "" /\
  float_of_decimal "" = None /\
  to_float float_of_decimal (modal_price (mkRecord (Some "Rice") (Text "30000")))
    = Some (of_Z 30000) /\
  is_nan (of_Z 30000) = false /\
  quote_of_record float_of_decimal (mkRecord (Some "Rice") (Text "30000"))
    = Some ("rice", of_Z 30000) /\
  dict_get "rice"
    (collect_quotes float_of_decimal
       ([mkRecord (Some "Wheat") (Text "2400")]
        ++ mkRecord (Some "Rice") (Text "30000")
        :: [mkRecord (Some " RICE") (Text "200")]))
  = Some [of_Z 30000; of_Z 200].
Proof.
  assert (Hname : "Rice" <> "") by discriminate.
  pose proof (outlier_policy float_of_decimal
                (mkRecord (Some "Rice") (Text "30000")) "Rice" (of_Z 30000)
                eq_refl Hname eq_refl eq_refl eq_refl) as (Hq & Hfeed & _).
  do 5 (split; [first [reflexivity | exact Hname]|]).
  split; [exact Hq|].
  exact (proj1 (Hfeed [mkRecord (Some "Wheat") (Text "2400")]
                      [mkRecord (Some " RICE") (Text "200")])).
Defined.


(** The four boundary prices, as the strings of a market feed. *)
Example outlier_boundaries :
  map (quote_of_record float_of_decimal)
      [ mkRecord (Some "Rice") (Text "99");
        mkRecord (Some "Rice") (Text "100");
        mkRecord (Some "Rice") (Text "30000");
        mkRecord (Some "Rice") (Text "30001") ]
  = [ None; Some ("rice", of_Z 100); Some ("rice", of_Z 30000); None ].
Proof. reflexivity. Qed.

(** When no price parses to NaN, the index is built and every price in it
    lies in the band [100, 30000]; a resolved price is then 0 or at
    least 100. *)
Theorem numeric_index_in_range
        (py_float : string -> option float) (records : list record)
        (Hnum : forall r, In r records ->
                          to_float py_float (modal_price r) <> Some FNaN) :
  exists price_dict,
    build_price_dictionary py_float records = Some price_dict /\
    (forall k m, In (k, m) price_dict -> in_range m = true) /\
    (forall name,
       get_price_for_crop name price_dict = of_Z 0 \/
       fle (of_Z 100) (get_price_for_crop name price_dict) = true).
Proof.
  destruct (build_price_dictionary_medians py_float records)
    as (price_dict & Hbuild & _).
  exists price_dict. split; [exact Hbuild|].
  assert (Hband : forall k m, In (k, m) price_dict -> in_range m = true)
    by exact (index_in_band py_float records price_dict Hnum Hbuild).
  split; [exact Hband|].
  intros name.
  destruct (get_price_in_index name price_dict) as [E|[k Hk]]; [now left|].
  right. apply Hband in Hk. apply andb_prop in Hk. apply Hk.
Qed.

Lemma numeric_index_in_range_witness :
  exists price_dict,
    build_price_dictionary float_of_decimal sample_records = Some price_dict /\
    (forall k m, In (k, m) price_dict -> in_range m = true) /\
    (forall name,
       get_price_for_crop name price_dict = of_Z 0 \/
       fle (of_Z 100) (get_price_for_crop name price_dict) = true).
Proof.
  apply (numeric_index_in_range float_of_decimal sample_records).
  intros r Hr. cbn in Hr.
  destruct Hr as [<-|[<-|[<-|[]]]]; intros H; discriminate H.
Defined.

(** C10 fails on a quote whose price is the string "nan": [float] parses
    it, neither comparison of the outlier filter is true of NaN, and the
    index stores NaN, which is outside [100, 30000]; the price then
    resolved for the crop is NaN, neither 0 nor at least 100, and it is
    reported in the recommendation. *)
Theorem nan_quote_enters_index :
  float_of_decimal "nan" = Some FNaN /\
  build_price_dictionary float_of_decimal [mkRecord (Some "Ragi") (Text "nan")]
    = Some [("ragi", FNaN)] /\
  in_range FNaN = false /\
  get_price_for_crop "Ragi" [("ragi", FNaN)] = FNaN /\
  feq FNaN (of_Z 0) = false /\
  fle (of_Z 100) FNaN = false /\
  map market_price_per_quintal
      (match predict float_of_decimal (constant_model (of_Z 5)) sample_catalog
                     (sample_request (Number (of_Z 0)))
                     [mkRecord (Some "Ragi") (Text "nan")] with
       | Some out => out
       | None => []
       end)
  = [FNaN].
Proof. repeat split; reflexivity. Qed.

Lemma recommendations_are_priced_witness :
  exists out,
    predict float_of_decimal (constant_model (of_Z 5)) sample_catalog
            (sample_request (Number (of_Z 0))) sample_records = Some out /\
    map crop out = ["Ragi"] /\
    exists price_dict,
      build_price_dictionary float_of_decimal sample_records = Some price_dict /\
      forall rec, In rec out ->
        exists c,
          In c sample_catalog /\
          rule_filter "Kharif" "Red" c = true /\
          crop rec = crop_name c /\
          feq (get_price_for_crop (crop_name c) price_dict) (of_Z 0) = false.
Proof.
  eexists. split; [reflexivity|]. split; [reflexivity|].
  destruct (recommendations_are_priced
              float_of_decimal (constant_model (of_Z 5)) sample_catalog
              (sample_request (Number (of_Z 0))) sample_records _ eq_refl)
    as (price_dict & Hbuild & Hrecs & _).
  exists price_dict. split; [exact Hbuild|].
  intros rec Hin. destruct (Hrecs rec Hin) as (c & Hc & Hrule & Hname & Hnz & _).
  exists c. repeat split; assumption.
Defined.

(** C8 fails on the same quote: the crop "Ragi" is recommended although
    the price its name resolved to is NaN, which is not strictly positive,
    and NaN is the price reported. *)
Theorem nan_price_is_recommended :
  exists rec,
    predict float_of_decimal (constant_model (of_Z 5)) sample_catalog
            (sample_request (Number (of_Z 0)))
            [mkRecord (Some "Ragi") (Text "nan")] = Some [rec] /\
    crop rec = "Ragi" /\
    get_price_for_crop "Ragi" [("ragi", FNaN)] = FNaN /\
    flt (of_Z 0) FNaN = false /\
    market_price_per_quintal rec = FNaN.
Proof. eexists. repeat split; reflexivity. Qed.

Lemma profit_is_ignored_witness :
  exists out,
    predict float_of_decimal (constant_model (of_Z 5)) sample_catalog
            (sample_request (Number (of_Z 0))) sample_records = Some out /\
    predict float_of_decimal (constant_model (of_Z 5)) sample_catalog
            (sample_request (Text "250000")) sample_records = Some out.
Proof.
  apply (profit_is_ignored float_of_decimal (constant_model (of_Z 5))
           sample_catalog (sample_request (Number (of_Z 0)))
           (sample_request (Text "250000")) sample_records);
    try reflexivity; cbn; intros H; discriminate H.
Defined.

(** The end-to-end scenario: Mandya, kharif, red soil, 800 mm, borewell,
    2 acres, a yield of 5 and a price of 2000 give an investment of 20000,
    no profit, an ROI of 0 and the tier "Stable". *)
Example end_to_end :
  exists rec,
    predict float_of_decimal (constant_model (of_Z 5)) sample_catalog
            (sample_request (Number (of_Z 0))) sample_records = Some [rec] /\
    crop rec = "Ragi" /\
    feq (market_price_per_quintal rec) (of_Z 2000) = true /\
    feq (investment rec) (of_Z 20000) = true /\
    feq (expected_profit rec) (of_Z 0) = true /\
    feq (roi_percent rec) (of_Z 0) = true /\
    risk_level rec = "Stable".
Proof. eexists. repeat split; reflexivity. Qed.

(** An empty price source gives no recommendation, and no error. *)
Example no_prices_no_recommendation :
  predict float_of_decimal (constant_model (of_Z 5)) sample_catalog
          (sample_request (Number (of_Z 0))) [] = Some [].
Proof. reflexivity. Qed.

(** ** More on price resolution *)

(** The loop of [get_price_for_crop] returns the price of the first
    commodity, in the order of the index, that is not skipped by the
    chilli rule and contains the lower-cased crop name, and 0 when there
    is none. *)
Theorem resolution_is_first_match (name : string) (price_dict : dict float) :
  get_price_for_crop name price_dict =
  match find (fun kv => eligible (lower name) (fst kv)) price_dict with
  | Some kv => snd kv
  | None => of_Z 0
  end.
Proof.
  unfold get_price_for_crop.
  induction price_dict as [|[commodity price] rest IH]; [reflexivity|].
  cbn [scan_prices find fst]. unfold eligible at 1.
  destruct (contains "chilli" (lower name)
            && (contains "dry" commodity && contains "green" (lower name)));
    cbn [negb andb]; [exact IH|].
  destruct (contains (lower name) commodity); [reflexivity | exact IH].
Qed.

Lemma first_match_none (name : string) (price_dict : dict float) :
  find (fun kv => eligible name (fst kv)) price_dict = None <->
  forall k p, In (k, p) price_dict -> eligible name k = false.
Proof.
  split.
  - intros H k p Hin. exact (find_none _ _ H (k, p) Hin).
  - intros H. induction price_dict as [|[k p] rest IH]; [reflexivity|].
    cbn. rewrite (H k p) by now left.
    apply IH. intros k' p' Hin. apply (H k' p'). now right.
Qed.

Section ResolutionFacts.
Variable py_float : string -> option float.

(** On an index built by [build_price_dictionary], the resolved price is 0
    exactly when no commodity of the index is a match for the crop name:
    a crop is left out for want of a price only when the feed has no
    matching commodity. *)
Theorem unresolved_iff_no_match
        (records : list record) (price_dict : dict float) (name : string)
        (Hbuild : build_price_dictionary py_float records = Some price_dict) :
  feq (get_price_for_crop name price_dict) (of_Z 0) = true <->
  forall k p, In (k, p) price_dict -> eligible (lower name) k = false.
Proof.
  rewrite <- first_match_none, resolution_is_first_match.
  destruct (find _ price_dict) as [[k p]|] eqn:E.
  - cbn [snd]. split; [|discriminate].
    apply find_some in E. destruct E as [Hin _].
    destruct (index_values py_float _ _ Hbuild k p Hin) as [->|Hband].
    + discriminate.
    + apply andb_prop in Hband. destruct Hband as [Hlo _].
      rewrite (proj1 (fle_100_nonzero _ Hlo)). discriminate.
  - split; reflexivity.
Qed.
End ResolutionFacts.

Lemma unresolved_iff_no_match_witness :
  feq (get_price_for_crop "Rice"
         [("ragi (finger millet)", of_Z 2000); ("wheat", of_Z 2400)])
      (of_Z 0) = true <->
  forall k p,
    In (k, p) [("ragi (finger millet)", of_Z 2000); ("wheat", of_Z 2400)] ->
    eligible (lower "Rice") k = false.
Proof.
  exact (unresolved_iff_no_match float_of_decimal sample_records
           [("ragi (finger millet)", of_Z 2000); ("wheat", of_Z 2400)]
           "Rice" eq_refl).
Defined.

(** ** The keys of the index *)

Lemma dict_mem_keys {V : Type} (k : string) (d : dict V) :
  dict_mem k d = existsb (String.eqb k) (map fst d).
Proof.
  unfold dict_mem. induction d as [|[k' v] d IH]; [reflexivity|].
  cbn. destruct (String.eqb k k'); [reflexivity | exact IH].
Qed.

Lemma dict_set_keys {V : Type} (k : string) (v : V) (d : dict V) :
  map fst (dict_set k v d) = remember_key (map fst d) k.
Proof.
  unfold remember_key. induction d as [|[k' v'] d IH]; [reflexivity|].
  cbn. destruct (String.eqb k k'); [reflexivity|].
  cbn. rewrite IH. now destruct (existsb (String.eqb k) (map fst d)).
Qed.

Lemma remember_key_twice (seen : list string) (k : string) :
  remember_key (remember_key seen k) k = remember_key seen k.
Proof.
  unfold remember_key.
  destruct (existsb (String.eqb k) seen) eqn:E; [now rewrite E|].
  rewrite existsb_app. cbn. rewrite String.eqb_refl.
  now rewrite orb_true_r.
Qed.

Lemma add_quote_keys (d : dict (list float)) (c : string) (p : float) :
  map fst (add_quote d c p) = remember_key (map fst d) c.
Proof.
  unfold add_quote. rewrite dict_mem_keys.
  destruct (existsb (String.eqb c) (map fst d)) eqn:E; cbn [negb].
  - assert (Hmem : dict_mem c d = true) by now rewrite dict_mem_keys.
    unfold dict_mem in Hmem.
    destruct (dict_get c d); [|discriminate]. apply dict_set_keys.
  - rewrite dict_get_set_same, !dict_set_keys. apply remember_key_twice.
Qed.

Lemma remember_keys_In (keys seen : list string) (k : string) :
  In k (fold_left remember_key keys seen) <-> In k seen \/ In k keys.
Proof.
  revert seen. induction keys as [|k0 keys IH]; intros seen; cbn.
  - tauto.
  - rewrite IH. unfold remember_key.
    destruct (existsb (String.eqb k0) seen) eqn:E.
    + apply existsb_exists in E. destruct E as (k1 & Hin & Heq).
      apply String.eqb_eq in Heq. subst k1.
      split; [tauto|]. intros [H|[<-|H]]; auto.
    + rewrite in_app_iff. cbn. tauto.
Qed.

Lemma remember_keys_NoDup (keys seen : list string) :
  NoDup seen -> NoDup (fold_left remember_key keys seen).
Proof.
  revert seen. induction keys as [|k0 keys IH]; intros seen Hseen; cbn;
    [exact Hseen|].
  apply IH. unfold remember_key.
  destruct (existsb (String.eqb k0) seen) eqn:E; [exact Hseen|].
  apply NoDup_app; [exact Hseen | repeat constructor; intros [] |].
  intros k Hk [<-|[]].
  assert (existsb (String.eqb k0) seen = true); [|congruence].
  apply existsb_exists. exists k0. split; [exact Hk | apply String.eqb_refl].
Qed.

Lemma medians_keys (d : dict (list float)) :
  forall price_dict, medians d = Some price_dict ->
                     map fst price_dict = map fst d.
Proof.
  induction d as [|[k l] d IH]; cbn; intros pd H.
  - now injection H as <-.
  - destruct (median l); [|discriminate].
    destruct (medians d) as [rest|]; [|discriminate].
    injection H as <-. cbn. now rewrite (IH rest eq_refl).
Qed.

Section IndexKeys.
Variable py_float : string -> option float.

Lemma collect_quotes_keys (records : list record) :
  forall d,
    map fst (fold_left (collect_step py_float) records d) =
    fold_left remember_key (map fst (surviving_quotes py_float records))
              (map fst d).
Proof.
  induction records as [|r records IH]; intros d; [reflexivity|].
  cbn [fold_left]. rewrite IH, surviving_quotes_cons, map_app, fold_left_app.
  unfold collect_step.
  destruct (quote_of_record py_float r) as [[c p]|]; [|reflexivity].
  cbn. now rewrite add_quote_keys.
Qed.

Lemma quote_of_record_key (r : record) (k : string) (p : float) :
  quote_of_record py_float r = Some (k, p) ->
  exists c, commodity r = Some c /\ c <> "" /\ k = strip (lower c).
Proof.
  unfold quote_of_record.
  destruct (commodity r) as [c|]; [|discriminate].
  destruct (String.eqb c "") eqn:Ec; [discriminate|]. cbn [orb].
  destruct (negb _); [discriminate|].
  destruct (to_float py_float (modal_price r)) as [price|]; [|discriminate].
  destruct (flt _ _); [discriminate|].
  destruct (fgt _ _); [discriminate|].
  intros [= <- <-]. exists c. apply String.eqb_neq in Ec. auto.
Qed.

(** The index has one entry for each normalised commodity with a surviving
    quote and no other: its keys are the lower-cased, trimmed commodity
    names of the records that got past the guards, each once, in the
    order in which they first appear in the feed. *)
Theorem index_keys (records : list record) (price_dict : dict float)
        (Hbuild : build_price_dictionary py_float records = Some price_dict) :
  map fst price_dict
    = first_occurrences (map fst (surviving_quotes py_float records)) /\
  NoDup (map fst price_dict) /\
  (forall k,
     In k (map fst price_dict) <->
     exists r c p,
       In r records /\ commodity r = Some c /\ k = strip (lower c) /\
       quote_of_record py_float r = Some (k, p)).
Proof.
  unfold build_price_dictionary in Hbuild.
  apply medians_keys in Hbuild. unfold collect_quotes in Hbuild.
  rewrite collect_quotes_keys in Hbuild. cbn [map] in Hbuild.
  fold (first_occurrences (map fst (surviving_quotes py_float records)))
    in Hbuild.
  rewrite Hbuild. split; [reflexivity|]. split.
  - apply remember_keys_NoDup. constructor.
  - intros k. unfold first_occurrences. rewrite remember_keys_In, in_map_iff.
    split.
    + intros [[]|([k' p] & Hk & Hin)]. cbn in Hk. subst k'.
      apply surviving_quotes_In in Hin. destruct Hin as (r & Hr & Hq).
      destruct (quote_of_record_key r k p Hq) as (c & Hc & _ & Hnorm).
      exists r, c, p. auto.
    + intros (r & c & p & Hr & _ & _ & Hq). right.
      exists (k, p). split; [reflexivity|].
      apply surviving_quotes_In. eauto.
Qed.
End IndexKeys.

Lemma index_keys_witness :
  map fst [("ragi (finger millet)", of_Z 2000); ("wheat", of_Z 2400)]
    = first_occurrences (map fst (surviving_quotes float_of_decimal sample_records)) /\
  NoDup (map fst [("ragi (finger millet)", of_Z 2000); ("wheat", of_Z 2400)]).
Proof.
  pose proof (index_keys float_of_decimal sample_records
                [("ragi (finger millet)", of_Z 2000); ("wheat", of_Z 2400)]
                eq_refl) as (Hkeys & Hnodup & _).
  exact (conj Hkeys Hnodup).
Defined.

(** ** More on ranking *)

Lemma sorted_app_pairs {A : Type} (R : A -> A -> Prop) (l1 l2 : list A) :
  StronglySorted R (l1 ++ l2) ->
  forall a b, In a l1 -> In b l2 -> R a b.
Proof.
  induction l1 as [|x l1 IH]; cbn; intros Hs a b Ha Hb; [contradiction|].
  inversion Hs as [|? ? Hs' Hx]; subst.
  destruct Ha as [<-|Ha].
  - rewrite Forall_forall in Hx. apply Hx, in_or_app. now right.
  - exact (IH Hs' a b Ha Hb).
Qed.

(** Truncation drops nothing that beats what is kept: when every expected
    profit is a number, the candidates left out of the answer have an
    expected profit no larger than that of any candidate returned, and the
    first candidate returned has the largest expected profit of all. *)
Theorem rank_keeps_the_best (recommendations : list Recommendation)
        (Hnum : Forall (numeric expected_profit) recommendations) :
  (exists rest,
     Permutation (rank recommendations ++ rest) recommendations /\
     forall a b, In a (rank recommendations) -> In b rest ->
                 fle (expected_profit b) (expected_profit a) = true) /\
  (forall top r,
     hd_error (rank recommendations) = Some top -> In r recommendations ->
     fle (expected_profit r) (expected_profit top) = true).
Proof.
  pose proof (sort_by_reverse_sorted expected_profit _ Hnum) as Hs.
  pose proof (sort_by_reverse_perm expected_profit recommendations) as Hp.
  unfold rank.
  set (ordered := sort_by_reverse expected_profit recommendations) in *.
  split.
  - exists (skipn 3 ordered). split; [now rewrite firstn_skipn|].
    rewrite <- (firstn_skipn 3 ordered) in Hs.
    exact (sorted_app_pairs _ _ _ Hs).
  - intros top r Htop Hr.
    apply (Permutation_in _ (Permutation_sym Hp)) in Hr.
    destruct ordered as [|x rest]; [discriminate Htop|].
    cbn in Htop. injection Htop as <-.
    inversion Hs as [|? ? _ Hx]; subst.
    destruct Hr as [<-|Hr].
    + assert (Hn : numeric expected_profit x).
      { rewrite Forall_forall in Hnum.
        apply Hnum, (Permutation_in _ Hp). now left. }
      unfold numeric in Hn. unfold fle.
      destruct (expected_profit x) as [q|[]|]; try discriminate; cbn;
        [|reflexivity|reflexivity].
      replace (Qeq_bool q q) with true; [apply orb_true_r|].
      symmetry. apply Qeq_bool_iff. reflexivity.
    + rewrite Forall_forall in Hx. exact (Hx r Hr).
Qed.

Lemma rank_keeps_the_best_witness :
  exists rest,
    Permutation
      (rank [ candidate "a" (of_Z 50); candidate "b" (of_Z 200);
              candidate "c" (of_Z 75); candidate "d" (of_Z 10) ] ++ rest)
      [ candidate "a" (of_Z 50); candidate "b" (of_Z 200);
        candidate "c" (of_Z 75); candidate "d" (of_Z 10) ] /\
    forall a b,
      In a (rank [ candidate "a" (of_Z 50); candidate "b" (of_Z 200);
                   candidate "c" (of_Z 75); candidate "d" (of_Z 10) ]) ->
      In b rest ->
      fle (expected_profit b) (expected_profit a) = true.
Proof.
  apply (rank_keeps_the_best
           [ candidate "a" (of_Z 50); candidate "b" (of_Z 200);
             candidate "c" (of_Z 75); candidate "d" (of_Z 10) ]).
  repeat constructor.
Defined.

(** ** More on the pipeline *)

Lemma collect_nothing (py_float : string -> option float)
      (records : list record) :
  surviving_quotes py_float records = [] ->
  build_price_dictionary py_float records = Some [].
Proof.
  intros Hnone. unfold build_price_dictionary.
  assert (Hkeys : map fst (collect_quotes py_float records) = []).
  { unfold collect_quotes. rewrite collect_quotes_keys, Hnone. reflexivity. }
  destruct (collect_quotes py_float records); [reflexivity | discriminate].
Qed.

Lemma lower_eq_rule_filter (s1 s2 o1 o2 : string) (c : CropRecord) :
  lower s1 = lower s2 -> lower o1 = lower o2 ->
  rule_filter s1 o1 c = rule_filter s2 o2 c.
Proof.
  intros Hs Ho. unfold rule_filter, season_rule, soil_rule.
  now rewrite Hs, Ho.
Qed.

Lemma lower_eq_input_data (mean : Z) (rain : float)
      (o1 o2 i1 i2 s1 s2 : string) (c : CropRecord) :
  lower o1 = lower o2 -> lower i1 = lower i2 -> lower s1 = lower s2 ->
  input_data mean rain o1 i1 s1 c = input_data mean rain o2 i2 s2 c.
Proof.
  intros Ho Hi Hs. unfold input_data. now rewrite Ho, Hi, Hs.
Qed.

Section PipelineFacts.
Variable py_float : string -> option float.
Variable model_predict : Features.t -> float.
Variable crop_master : list CropRecord.

(** Where a recommendation of the answer comes from. *)
Lemma answer_origin (data : request) (mandi_records : list record)
      (out : list Recommendation) :
  predict py_float model_predict crop_master data mandi_records = Some out ->
  exists rain area price_dict recs,
    to_float py_float (rainfall data) = Some rain /\
    to_float py_float (land_area data) = Some area /\
    build_price_dictionary py_float mandi_records = Some price_dict /\
    recommend model_predict data (district_mean_of (district data))
              rain area price_dict crop_master = Some recs /\
    out = rank recs.
Proof.
  unfold predict. fold (district_mean_of (district data)).
  destruct (to_float py_float (rainfall data)) as [rain|]; [|discriminate].
  destruct (to_float py_float (land_area data)) as [area|]; [|discriminate].
  destruct (to_float py_float (profit data)) as [cap|]; [|discriminate].
  destruct (build_price_dictionary py_float mandi_records)
    as [price_dict|]; [|discriminate].
  destruct (recommend _ _ _ _ _ _ _) as [recs|] eqn:Hrecs; [|discriminate].
  intros [= <-]. exists rain, area, price_dict, recs. auto.
Qed.

Lemma recommend_length (data : request) (mean : Z) (rain area : float)
      (price_dict : dict float) (crops : list CropRecord) :
  forall recs,
    recommend model_predict data mean rain area price_dict crops = Some recs ->
    (List.length recs
     <= List.length (filter (rule_filter (season data) (soil data)) crops))%nat.
Proof.
  induction crops as [|c crops IH]; cbn [recommend filter]; intros recs H.
  - injection H as <-. cbn. lia.
  - destruct (consider model_predict data mean rain area price_dict c)
      as [r|] eqn:Ec; [|discriminate].
    destruct (recommend model_predict data mean rain area price_dict crops)
      as [rs|]; [|discriminate].
    injection H as <-. specialize (IH rs eq_refl).
    unfold consider in Ec.
    destruct (rule_filter (season data) (soil data) c); cbn [negb] in Ec.
    + destruct r; cbn [List.length]; lia.
    + injection Ec as <-. exact IH.
Qed.

Lemma recommend_without_prices (data : request) (mean : Z)
      (rain area : float) (crops : list CropRecord) :
  recommend model_predict data mean rain area [] crops = Some [].
Proof.
  induction crops as [|c crops IH]; [reflexivity|].
  cbn [recommend]. rewrite IH. unfold consider.
  destruct (negb _); reflexivity.
Qed.

(** When no record gets past the guards of the aggregator, and so when
    the price source cannot be reached or answers without records, a
    request whose numeric fields convert is answered with an empty list of
    recommendations. *)
Theorem no_quotes_no_recommendations
        (data : request) (mandi_records : list record)
        (Hrain : to_float py_float (rainfall data) <> None)
        (Hland : to_float py_float (land_area data) <> None)
        (Hprofit : to_float py_float (profit data) <> None) :
  (surviving_quotes py_float mandi_records = [] ->
   predict py_float model_predict crop_master data mandi_records = Some []) /\
  predict py_float model_predict crop_master data
          (fetch_karnataka_prices Unreachable) = Some [] /\
  predict py_float model_predict crop_master data
          (fetch_karnataka_prices (Reply None)) = Some [].
Proof.
  assert (H : forall records,
             surviving_quotes py_float records = [] ->
             predict py_float model_predict crop_master data records = Some []).
  { intros records Hnone. unfold predict.
    destruct (to_float py_float (rainfall data)) as [rain|]; [|congruence].
    destruct (to_float py_float (land_area data)) as [area|]; [|congruence].
    destruct (to_float py_float (profit data)) as [cap|]; [|congruence].
    rewrite (collect_nothing py_float records Hnone).
    now rewrite recommend_without_prices. }
  split; [apply H|]. split; apply H; reflexivity.
Qed.

(** The answer holds at most three recommendations and no more than there
    are crops that get past the season and soil rules. *)
Theorem answer_is_bounded (data : request) (mandi_records : list record)
        (out : list Recommendation)
        (Hout : predict py_float model_predict crop_master data mandi_records
                = Some out) :
  (List.length out <= 3)%nat /\
  (List.length out
   <= List.length (filter (rule_filter (season data) (soil data))
                          crop_master))%nat.
Proof.
  destruct (answer_origin _ _ _ Hout)
    as (rain & area & price_dict & recs & _ & _ & _ & Hrecs & ->).
  apply recommend_length in Hrecs.
  unfold rank. rewrite length_firstn.
  rewrite (Permutation_length (sort_by_reverse_perm expected_profit recs)).
  lia.
Qed.

(** Season, soil and irrigation are read without regard to case: two
    requests that agree on them after lower-casing, and on every other
    field, get the same answer. *)
Theorem request_case_is_ignored (d1 d2 : request)
        (mandi_records : list record)
        (Hdistrict : district d1 = district d2)
        (Hseason : lower (season d1) = lower (season d2))
        (Hsoil : lower (soil d1) = lower (soil d2))
        (Hirrigation : lower (irrigation d1) = lower (irrigation d2))
        (Hrainfall : rainfall d1 = rainfall d2)
        (Hland : land_area d1 = land_area d2)
        (Hprofit : profit d1 = profit d2) :
  predict py_float model_predict crop_master d1 mandi_records =
  predict py_float model_predict crop_master d2 mandi_records.
Proof.
  unfold predict. rewrite Hdistrict, Hrainfall, Hland, Hprofit.
  destruct (to_float py_float (rainfall d2)) as [rain|]; [|reflexivity].
  destruct (to_float py_float (land_area d2)) as [area|]; [|reflexivity].
  destruct (to_float py_float (profit d2)) as [cap|]; [|reflexivity].
  destruct (build_price_dictionary py_float mandi_records)
    as [price_dict|]; [|reflexivity].
  match goal with
  | |- context [recommend _ d1 ?m _ _ _ _] => generalize m
  end.
  intros mean.
  assert (H : recommend model_predict d1 mean rain area price_dict crop_master
              = recommend model_predict d2 mean rain area price_dict crop_master).
  { induction crop_master as [|c crops IH]; [reflexivity|].
    cbn [recommend]. rewrite IH. unfold consider.
    rewrite (lower_eq_rule_filter _ _ _ _ c Hseason Hsoil).
    now rewrite (lower_eq_input_data mean rain _ _ _ _ _ _ c
                   Hsoil Hirrigation Hseason). }
  now rewrite H.
Qed.
End PipelineFacts.

(** ** Features and financial fields *)


Lemma fmul_zero_not_positive (cost area : float) :
  feq area (of_Z 0) = true -> fgt (fmul cost area) (of_Z 0) = false.
Proof.
  unfold fgt, of_Z.
  destruct area as [q|[]|]; cbn; try discriminate.
  intros Hq. unfold inject_Z in *.
  destruct cost as [c|n|]; cbn; [|now rewrite Hq|reflexivity].
  apply Qeq_bool_iff in Hq. apply Qlt_bool_false.
  assert (H : c * q == 0) by (rewrite Hq; ring).
  rewrite H. lra.
Qed.

Lemma evaluate_fields (c : CropRecord) (yield price area : float)
      (rec : Recommendation) :
  evaluate c yield price area = Some (Some rec) ->
  exists r,
    roi (fsub (fmul (fmul yield area) price)
              (fmul (total_cost_per_acre c) area))
        (fmul (total_cost_per_acre c) area) = Some r /\
    predicted_yield rec = round2 yield /\
    investment rec = round2 (fmul (total_cost_per_acre c) area) /\
    expected_profit rec
      = round2 (fsub (fmul (fmul yield area) price)
                     (fmul (total_cost_per_acre c) area)) /\
    roi_percent rec = round2 r /\
    risk_level rec = risk r.
Proof.
  unfold evaluate. destruct (feq price (of_Z 0)); [discriminate|].
  destruct (roi _ _) as [r|]; [|discriminate].
  intros [= <-]. exists r. repeat split.
Qed.

Section FinancialFacts.
Variable py_float : string -> option float.
Variable model_predict : Features.t -> float.
Variable crop_master : list CropRecord.

(** With a land area of 0 every recommendation of the answer has an ROI
    of 0 and the tier "Stable": the investment is not positive, so the
    division is skipped. *)
Theorem zero_land_area_is_stable (data : request)
        (mandi_records : list record) (out : list Recommendation)
        (area : float)
        (Harea : to_float py_float (land_area data) = Some area)
        (Hzero : feq area (of_Z 0) = true)
        (Hout : predict py_float model_predict crop_master data mandi_records
                = Some out) :
  forall rec, In rec out ->
    feq (roi_percent rec) (of_Z 0) = true /\ risk_level rec = "Stable".
Proof.
  destruct (answer_origin _ _ _ _ _ _ Hout)
    as (rain & area' & price_dict & recs & _ & Harea' & _ & Hrecs & ->).
  assert (area' = area) by congruence. subst area'.
  intros rec Hin. apply rank_subset in Hin.
  destruct (recommend_in _ _ _ _ _ _ _ _ Hrecs rec Hin) as (c & _ & Econs).
  unfold consider in Econs. destruct (negb _); [discriminate|].
  destruct (evaluate_fields _ _ _ _ _ Econs) as (r & Hroi & _ & _ & _ & Hr & Hk).
  unfold roi in Hroi.
  rewrite (fmul_zero_not_positive (total_cost_per_acre c) area Hzero) in Hroi.
  injection Hroi as <-. rewrite Hr, Hk. split; reflexivity.
Qed.
End FinancialFacts.

(** ** The further properties on sample data *)

Lemma no_quotes_no_recommendations_witness :
  surviving_quotes float_of_decimal
    [ mkRecord (Some "Rice") (Text "45"); mkRecord None (Text "500");
      mkRecord (Some "Ragi") (Text "n/a") ] = [] /\
  predict float_of_decimal (constant_model (of_Z 5)) sample_catalog
          (sample_request (Number (of_Z 0)))
          [ mkRecord (Some "Rice") (Text "45"); mkRecord None (Text "500");
            mkRecord (Some "Ragi") (Text "n/a") ] = Some [].
Proof.
  split; [reflexivity|].
  apply (no_quotes_no_recommendations
           float_of_decimal (constant_model (of_Z 5)) sample_catalog
           (sample_request (Number (of_Z 0)))
           [ mkRecord (Some "Rice") (Text "45"); mkRecord None (Text "500");
             mkRecord (Some "Ragi") (Text "n/a") ]);
    try reflexivity; cbn; intros H; discriminate H.
Defined.

Lemma answer_is_bounded_witness :
  exists out,
    predict float_of_decimal (constant_model (of_Z 5)) sample_catalog
            (sample_request (Number (of_Z 0))) sample_records = Some out /\
    (List.length out <= 3)%nat /\
    (List.length out
     <= List.length (filter (rule_filter "Kharif" "Red") sample_catalog))%nat.
Proof.
  eexists. split; [reflexivity|].
  exact (answer_is_bounded
           float_of_decimal (constant_model (of_Z 5)) sample_catalog
           (sample_request (Number (of_Z 0))) sample_records _ eq_refl).
Defined.

Lemma request_case_is_ignored_witness :
  predict float_of_decimal (constant_model (of_Z 5)) sample_catalog
          (sample_request (Number (of_Z 0))) sample_records =
  predict float_of_decimal (constant_model (of_Z 5)) sample_catalog
          (mkRequest "Mandya" "KHARIF" "red" (Number (of_Z 800)) "BoreWell"
                     (Number (of_Z 2)) (Number (of_Z 0)))
          sample_records.
Proof.
  apply (request_case_is_ignored
           float_of_decimal (constant_model (of_Z 5)) sample_catalog
           (sample_request (Number (of_Z 0)))
           (mkRequest "Mandya" "KHARIF" "red" (Number (of_Z 800)) "BoreWell"
                      (Number (of_Z 2)) (Number (of_Z 0)))
           sample_records);
    reflexivity.
Defined.

Lemma zero_land_area_is_stable_witness :
  exists out,
    predict float_of_decimal (constant_model (of_Z 5)) sample_catalog
            (mkRequest "Mandya" "Kharif" "Red" (Number (of_Z 800)) "Borewell"
                       (Text "0") (Number (of_Z 0)))
            sample_records = Some out /\
    out <> [] /\
    Forall (fun rec => feq (roi_percent rec) (of_Z 0) = true /\
                       risk_level rec = "Stable") out.
Proof.
  eexists. split; [reflexivity|]. split; [discriminate|].
  apply Forall_forall.
  exact (zero_land_area_is_stable
           float_of_decimal (constant_model (of_Z 5)) sample_catalog
           (mkRequest "Mandya" "Kharif" "Red" (Number (of_Z 800)) "Borewell"
                      (Text "0") (Number (of_Z 0)))
           sample_records _ (of_Z 0) eq_refl eq_refl eq_refl).
Defined.

(** ** Compatibility of the recommended crops *)

Section CompatibilityFacts.
Variable py_float : string -> option float.
Variable model_predict : Features.t -> float.
Variable crop_master : list CropRecord.

(** Under a recognised season or soil, every recommendation of the answer
    comes from a catalog crop whose flag for that season or soil is 1: a
    crop without the flag never appears in the answer on the strength of
    its own row. *)
Theorem recommended_crops_are_compatible
        (data : request) (mandi_records : list record)
        (out : list Recommendation)
        (Hout : predict py_float model_predict crop_master data mandi_records
                = Some out) :
  forall rec, In rec out ->
    exists c,
      In c crop_master /\ crop rec = crop_name c /\
      (lower (season data) = "kharif" -> season_kharif c = 1%Z) /\
      (lower (season data) = "rabi" -> season_rabi c = 1%Z) /\
      (lower (soil data) = "black" -> soil_black c = 1%Z) /\
      (lower (soil data) = "red" -> soil_red c = 1%Z) /\
      (lower (soil data) = "alluvial" -> soil_alluvial c = 1%Z).
Proof.
  destruct (answer_origin _ _ _ _ _ _ Hout)
    as (rain & area & price_dict & recs & _ & _ & _ & Hrecs & ->).
  intros rec Hin. apply rank_subset in Hin.
  destruct (recommend_in _ _ _ _ _ _ _ _ Hrecs rec Hin) as (c & Hc & Econs).
  destruct (consider_some _ _ _ _ _ _ _ _ Econs) as (Hrule & _ & Hname & _).
  exists c. split; [exact Hc|]. split; [exact Hname|].
  exact (rule_filter_flags _ _ c Hrule).
Qed.
End CompatibilityFacts.

Lemma recommended_crops_are_compatible_witness :
  exists out,
    predict float_of_decimal (constant_model (of_Z 5)) sample_catalog
            (sample_request (Number (of_Z 0))) sample_records = Some out /\
    Forall (fun rec =>
              exists c, In c sample_catalog /\ crop rec = crop_name c /\
                        season_kharif c = 1%Z /\ soil_red c = 1%Z) out.
Proof.
  eexists. split; [reflexivity|].
  apply Forall_forall. intros rec Hin.
  destruct (recommended_crops_are_compatible
              float_of_decimal (constant_model (of_Z 5)) sample_catalog
              (sample_request (Number (of_Z 0))) sample_records _ eq_refl
              rec Hin)
    as (c & Hc & Hname & Hk & _ & _ & Hr & _).
  exists c. repeat split; [exact Hc | exact Hname | apply Hk | apply Hr];
    reflexivity.
Defined.
